(** * morsel.db: the persistence-and-mutation engine of [src/database.ts]

    A shallow embedding of class [Database] and of the error catalog it
    imports, followed by the properties of the engine.

    Modelling choices, all of them visible in the definitions below:
    - a JavaScript value is a finite tree ([Js.value]): [undefined], [null],
      booleans, numbers, strings, arrays (with holes) and plain objects;
      functions, cyclic structures and objects with a prototype of their own
      are not among the values a caller passes.  Arrays and objects carry no
      identity.  Where the code compares references, in the callback of
      [delete], the answer for two arrays or two objects is taken from
      [same_reference], a parameter of the method.  A change made in place
      ([push], [deleteKey]) is recorded at the key that was read; the
      statements say nothing about a second key holding the same object;
    - an object is the list of its own enumerable properties in
      enumeration order.  The prototype chain is modelled where the methods
      meet it: [this.data] has a prototype ([Object.prototype] unless an
      assignment to ["__proto__"] replaced it), a read falls through to the
      members of [Object.prototype] and [Array.prototype], and the members
      that [deleteKey] deletes from [Object.prototype] are part of the state;
    - a number is an IEEE 754 binary64 float (Rocq's primitive floats);
    - every [async] method runs to completion without interleaving: a
      rejected promise is an abrupt completion that carries the thrown value;
    - the file system is a finite map from paths to contents together with
      the paths on which a write, respectively an unlink, is refused;
    - [console.error] output is not part of the state;
    - the constructor and [load] (which needs [JSON.parse]) are left out:
      the properties below hold from every state of the instance and of
      the disk, whatever was loaded. *)

From Stdlib Require Import PrimFloat FloatOps SpecFloat FloatAxioms Uint63.
From Stdlib Require Import ZArith NArith String Ascii List Bool Lia.
From stdpp Require Import gmap strings pretty.
Import ListNotations.

Local Open Scope string_scope.


(** ** JavaScript values *)

Module Js.

#[warnings="-register-all"]
Inductive value : Type :=
| VUndefined
| VNull
| VBool (b : bool)
| VNumber (n : float)
| VString (s : string)
| VArray (items : list (option value))   (* [None] is a hole *)
| VObject (props : list (string * value)).

Definition object : Type := list (string * value).

(** [typeof v] *)
Definition typeof (v : value) : string :=
  match v with
  | VUndefined => "undefined"
  | VNull => "object"
  | VBool _ => "boolean"
  | VNumber _ => "number"
  | VString _ => "string"
  | VArray _ => "object"
  | VObject _ => "object"
  end.

(** [ToBoolean v]: the falsy values are [undefined], [null], [false],
    [+0], [-0], [NaN] and the empty string. *)
Definition ToBoolean (v : value) : bool :=
  match v with
  | VUndefined => false
  | VNull => false
  | VBool b => b
  | VNumber n => negb (PrimFloat.eqb n 0 || PrimFloat.is_nan n)
  | VString s => negb (String.eqb s EmptyString)
  | VArray _ => true
  | VObject _ => true
  end.

(** [a === b] when at least one side is a primitive value.  Numbers
    compare as IEEE doubles ([NaN !== NaN], [0 === -0]).  Two arrays or two
    objects are [===] when they are one object, which a tree does not
    record: the methods compare arrays and objects only in the callback of
    [delete], through [strict_equal_at] below. *)
Definition strict_equal (a b : value) : bool :=
  match a, b with
  | VUndefined, VUndefined => true
  | VNull, VNull => true
  | VBool x, VBool y => Bool.eqb x y
  | VNumber x, VNumber y => PrimFloat.eqb x y
  | VString x, VString y => String.eqb x y
  | _, _ => false
  end.

Definition Array_isArray (v : value) : bool :=
  match v with VArray _ => true | _ => false end.

(** [Number.isInteger v]: a number that is finite and has no fractional
    part.  A finite double is [m * 2^e]. *)
Definition Number_isInteger (v : value) : bool :=
  match v with
  | VNumber n =>
      match Prim2SF n with
      | S754_zero _ => true
      | S754_finite _ m e =>
          (0 <=? e)%Z || (Z.pos m mod 2 ^ (- e) =? 0)%Z
      | _ => false
      end
  | _ => false
  end.

(** The mathematical value of an integral double. *)
Definition integer_value (n : float) : Z :=
  match Prim2SF n with
  | S754_finite s m e =>
      let a := if (0 <=? e)%Z then (Z.pos m * 2 ^ e)%Z
               else (Z.pos m / 2 ^ (- e))%Z in
      if s then (- a)%Z else a
  | _ => 0%Z
  end.

(** The string of a value that is known to be a string (behind a
    [typeof key === 'string'] guard). *)
Definition string_of (v : value) : string :=
  match v with VString s => s | _ => EmptyString end.

(** The double of a value that is known to be a number. *)
Definition number_of (v : value) : float :=
  match v with VNumber n => n | _ => PrimFloat.nan end.

(** *** Property keys that are array indices *)

Definition digit_of (c : ascii) : option N :=
  let n := N_of_ascii c in
  if ((48 <=? n) && (n <=? 57))%N then Some (n - 48)%N else None.

Fixpoint parse_digits (s : string) (acc : N) : option N :=
  match s with
  | EmptyString => Some acc
  | String c r =>
      match digit_of c with
      | Some d => parse_digits r (acc * 10 + d)%N
      | None => None
      end
  end.

(** A canonical numeric string below [2^32 - 1]. *)
Definition array_index (s : string) : option N :=
  match s with
  | EmptyString => None
  | String c r =>
      if Ascii.eqb c "0" && negb (String.eqb r EmptyString) then None
      else match parse_digits s 0 with
           | Some n => if (n <? 2 ^ 32 - 1)%N then Some n else None
           | None => None
           end
  end.

(** *** Ordinary objects: own properties in enumeration order *)

Fixpoint obj_has (k : string) (o : object) : bool :=
  match o with
  | [] => false
  | (k', _) :: r => String.eqb k' k || obj_has k r
  end.

(** [o[k]]; [undefined] when [o] has no property [k]. *)
Fixpoint obj_get (k : string) (o : object) : value :=
  match o with
  | [] => VUndefined
  | (k', v) :: r => if String.eqb k' k then v else obj_get k r
  end.

(** [delete o[k]] *)
Fixpoint obj_delete (k : string) (o : object) : object :=
  match o with
  | [] => []
  | (k', v) :: r =>
      if String.eqb k' k then obj_delete k r else (k', v) :: obj_delete k r
  end.

Fixpoint obj_update (k : string) (v : value) (o : object) : object :=
  match o with
  | [] => []
  | (k', v') :: r =>
      if String.eqb k' k then (k, v) :: r else (k', v') :: obj_update k v r
  end.

Fixpoint obj_insert_index (n : N) (k : string) (v : value) (o : object)
  : object :=
  match o with
  | [] => [(k, v)]
  | (k', v') :: r =>
      match array_index k' with
      | Some n' =>
          if (n' <? n)%N then (k', v') :: obj_insert_index n k v r
          else (k, v) :: o
      | None => (k, v) :: o
      end
  end.

(** A new property goes after the existing ones, except that array-index
    keys come first, in ascending numeric order. *)
Definition obj_define (k : string) (v : value) (o : object) : object :=
  match array_index k with
  | Some n => obj_insert_index n k v o
  | None => (o ++ [(k, v)])%list
  end.

(** [o[k] = v] *)
Definition obj_set (k : string) (v : value) (o : object) : object :=
  if obj_has k o then obj_update k v o else obj_define k v o.

(** [Object.keys o] and [Object.values o] *)
Definition Object_keys (o : object) : list string := List.map fst o.
Definition Object_values (o : object) : list value := List.map snd o.

(** *** Arrays *)

(** The element at position [i]; [undefined] at a hole and past the end. *)
Definition arr_at (i : nat) (items : list (option value)) : value :=
  match items !! i with
  | Some (Some v) => v
  | _ => VUndefined
  end.

(** [items[n]] for a number [n] that [Number.isInteger] accepted.  An array
    has fewer than [2^32] elements, so an integer within its length is an
    array index; every other integer names a property the array lacks. *)
Definition arr_get_number (n : float) (items : list (option value)) : value :=
  let z := integer_value n in
  if ((0 <=? z) && (z <? Z.of_nat (List.length items)))%Z
  then arr_at (Z.to_nat z) items
  else VUndefined.

(** [delete items[k]] in strict mode: an index within the array leaves a
    hole, ["length"] is not configurable (the result is [None], a
    [TypeError]), any other key names nothing. *)
Definition arr_delete (k : string) (items : list (option value))
  : option (list (option value)) :=
  match array_index k with
  | Some n => Some (<[N.to_nat n := None]> items)
  | None => if String.eqb k "length" then None else Some items
  end.

(** [items.push(v)] *)
Definition arr_push (v : value) (items : list (option value))
  : list (option value) :=
  (items ++ [Some v])%list.

(** A value with no identity: [undefined], [null], a boolean, a number or
    a string. *)
Definition is_primitive (v : value) : bool :=
  match v with
  | VArray _ => false
  | VObject _ => false
  | _ => true
  end.

(** [item === value] for the element [item] at index [i] of an array.
    Whether an array or an object among the elements is the very object
    [value] is told by [same_reference i]. *)
Definition strict_equal_at (same_reference : nat -> bool) (value : value)
  (i : nat) (item : Js.value) : bool :=
  match item, value with
  | VArray _, VArray _ => same_reference i
  | VObject _, VObject _ => same_reference i
  | _, _ => strict_equal item value
  end.

(** [items.filter((item, index) => f index item)], for the part of the
    array that starts at index [i]: holes are not visited. *)
Fixpoint arr_filter_from (i : nat) (f : nat -> value -> bool)
  (items : list (option value)) : list (option value) :=
  match items with
  | [] => []
  | Some v :: r =>
      if f i v then Some v :: arr_filter_from (S i) f r
      else arr_filter_from (S i) f r
  | None :: r => arr_filter_from (S i) f r
  end.

(** [items.filter(item => item !== value)] *)
Definition arr_without (same_reference : nat -> bool) (value : value)
  (items : list (option Js.value)) : list (option Js.value) :=
  arr_filter_from 0
    (fun i item => negb (strict_equal_at same_reference value i item)) items.

(** [items.filter(f)] for a callback that looks at the item only. *)
Fixpoint arr_filter (f : value -> bool) (items : list (option value))
  : list (option value) :=
  match items with
  | [] => []
  | Some v :: r => if f v then Some v :: arr_filter f r else arr_filter f r
  | None :: r => arr_filter f r
  end.

(** [delete v[k]] for a value [v] that is an array or an object. *)
Definition prop_delete (k : string) (v : value) : option value :=
  match v with
  | VArray items => option_map VArray (arr_delete k items)
  | VObject props => Some (VObject (obj_delete k props))
  | _ => Some v
  end.

(** *** Prototypes *)

(** The own members of [Object.prototype].  All are functions except the
    accessor ["__proto__"]; none is enumerable, all are configurable and
    the functions are writable. *)
Definition Object_prototype_names : list string :=
  [ "constructor"; "__defineGetter__"; "__defineSetter__"; "hasOwnProperty";
    "__lookupGetter__"; "__lookupSetter__"; "isPrototypeOf";
    "propertyIsEnumerable"; "toString"; "valueOf"; "__proto__";
    "toLocaleString" ].

(** The function-valued own members of [Array.prototype] (ECMAScript 2023);
    none is enumerable. *)
Definition Array_prototype_names : list string :=
  [ "at"; "concat"; "constructor"; "copyWithin"; "entries"; "every"; "fill";
    "filter"; "find"; "findIndex"; "findLast"; "findLastIndex"; "flat";
    "flatMap"; "forEach"; "includes"; "indexOf"; "join"; "keys";
    "lastIndexOf"; "map"; "pop"; "push"; "reduce"; "reduceRight"; "reverse";
    "shift"; "slice"; "some"; "sort"; "splice"; "toLocaleString";
    "toReversed"; "toSorted"; "toSpliced"; "toString"; "unshift"; "values";
    "with" ].

Definition in_names (k : string) (names : list string) : bool :=
  existsb (String.eqb k) names.

Inductive builtin : Type := ObjectProto | ArrayProto.

(** What reading a property can give: a data value, a function found on a
    built-in prototype, or one of the two built-in prototype objects. *)
Inductive reading : Type :=
| Stored (v : value)
| BuiltinFunction (owner : builtin) (name : string)
| TheObjectPrototype
| TheArrayPrototype.

Definition typeof_reading (r : reading) : string :=
  match r with
  | Stored v => typeof v
  | BuiltinFunction _ _ => "function"
  | TheObjectPrototype => "object"
  | TheArrayPrototype => "object"
  end.

Definition ToBoolean_reading (r : reading) : bool :=
  match r with
  | Stored v => ToBoolean v
  | _ => true
  end.

(** [Array.isArray r]; [Array.prototype] is itself an array. *)
Definition isArray_reading (r : reading) : bool :=
  match r with
  | Stored v => Array_isArray v
  | TheArrayPrototype => true
  | _ => false
  end.

(** The items of an array that was read; none for anything else. *)
Definition items_of_reading (r : reading) : list (option value) :=
  match r with
  | Stored (VArray items) => items
  | _ => []
  end.

(** The double of a reading that is known to be a number. *)
Definition number_of_reading (r : reading) : float :=
  match r with
  | Stored v => number_of v
  | _ => PrimFloat.nan
  end.

(** The [[Prototype]] of [this.data]: [Object.prototype] for [{}] and for a
    parsed document, or what an assignment to ["__proto__"] installed. *)
Inductive prototype : Type :=
| ObjectPrototype
| NullPrototype
| ArrayAsPrototype (items : list (option value))
| ObjectAsPrototype (props : list (string * value)).

(** What the [__proto__] getter returns for an object with that
    prototype. *)
Definition prototype_reading (p : prototype) : reading :=
  match p with
  | ObjectPrototype => TheObjectPrototype
  | NullPrototype => Stored VNull
  | ArrayAsPrototype items => Stored (VArray items)
  | ObjectAsPrototype props => Stored (VObject props)
  end.

(** The own property [k] of an array: an element that is present, or
    ["length"]. *)
Definition arr_own (k : string) (items : list (option value)) : option value :=
  match array_index k with
  | Some n =>
      match items !! N.to_nat n with
      | Some (Some v) => Some v
      | _ => None
      end
  | None =>
      if String.eqb k "length"
      then Some (VNumber (PrimFloat.of_uint63
                            (Uint63.of_Z (Z.of_nat (List.length items)))))
      else None
  end.

(** The own property [k] of an ordinary object. *)
Definition obj_own (k : string) (props : object) : option value :=
  if obj_has k props then Some (obj_get k props) else None.

Section Chain.

(** Whether [Object.prototype] still has the member. *)
Variable live : string -> bool.

(** The property [k] looked up on [Object.prototype], for a receiver whose
    [__proto__] reads as [rp]. *)
Definition from_Object_prototype (rp : reading) (k : string) : reading :=
  if live k
  then if String.eqb k "__proto__" then rp else BuiltinFunction ObjectProto k
  else Stored VUndefined.

(** The same lookup starting at [Array.prototype]. *)
Definition from_Array_prototype (rp : reading) (k : string) : reading :=
  if in_names k Array_prototype_names then BuiltinFunction ArrayProto k
  else from_Object_prototype rp k.

(** The property [k] of an object without own property [k] and with
    prototype [p]. *)
Definition inherited (p : prototype) (k : string) : reading :=
  match p with
  | ObjectPrototype => from_Object_prototype (prototype_reading p) k
  | NullPrototype => Stored VUndefined
  | ArrayAsPrototype items =>
      match arr_own k items with
      | Some v => Stored v
      | None => from_Array_prototype (prototype_reading p) k
      end
  | ObjectAsPrototype props =>
      match obj_own k props with
      | Some v => Stored v
      | None => from_Object_prototype (prototype_reading p) k
      end
  end.

(** [target[k]] for what [objectFetch] lets through: a stored array or
    object, or [Object.prototype] read at ["__proto__"]. *)
Definition property (k : string) (target : reading) : reading :=
  match target with
  | Stored (VObject props) =>
      match obj_own k props with
      | Some v => Stored v
      | None => from_Object_prototype TheObjectPrototype k
      end
  | Stored (VArray items) =>
      match arr_own k items with
      | Some v => Stored v
      | None => from_Array_prototype TheArrayPrototype k
      end
  | TheObjectPrototype => from_Object_prototype (Stored VNull) k
  | _ => Stored VUndefined
  end.

(** Whether an assignment to [k], on an object that has no own property
    [k] and has prototype [p], finds the [__proto__] setter. *)
Definition reaches_setter (p : prototype) (k : string) : bool :=
  String.eqb k "__proto__" && live "__proto__"
  && match p with
     | ObjectPrototype => true
     | NullPrototype => false
     | ArrayAsPrototype _ => true
     | ObjectAsPrototype props => negb (obj_has k props)
     end.

End Chain.

(** The [__proto__] setter: an object or [null] becomes the prototype, any
    other value is ignored. *)
Definition as_prototype (v : value) (current : prototype) : prototype :=
  match v with
  | VArray items => ArrayAsPrototype items
  | VObject props => ObjectAsPrototype props
  | VNull => NullPrototype
  | _ => current
  end.

(** The enumerable own keys of a prototype, as [for-in] meets them. *)
Definition prototype_keys (p : prototype) : list string :=
  match p with
  | ArrayAsPrototype items =>
      omap (fun '(i, item) =>
              match item with
              | Some _ => Some (pretty (N.of_nat i))
              | None => None
              end) (imap pair items)
  | ObjectAsPrototype props => Object_keys props
  | _ => []
  end.

(** *** [JSON.stringify(v, null, 2)] *)

Definition dquote : string := String (ascii_of_N 34) EmptyString.
Definition backslash : string := String (ascii_of_N 92) EmptyString.
Definition newline : string := String (ascii_of_N 10) EmptyString.

Definition hex_digit (n : N) : ascii :=
  match String.get (N.to_nat n) "0123456789abcdef" with
  | Some c => c
  | None => "0"%char
  end.

Definition quote_char (c : ascii) : string :=
  let n := N_of_ascii c in
  if (n =? 34)%N then backslash ++ dquote
  else if (n =? 92)%N then backslash ++ backslash
  else if (n =? 8)%N then backslash ++ "b"
  else if (n =? 12)%N then backslash ++ "f"
  else if (n =? 10)%N then backslash ++ "n"
  else if (n =? 13)%N then backslash ++ "r"
  else if (n =? 9)%N then backslash ++ "t"
  else if (n <? 32)%N then
    backslash ++ "u00"
      ++ String (hex_digit (n / 16)) (String (hex_digit (n mod 16)) EmptyString)
  else String c EmptyString.

Fixpoint quote_chars (s : string) : string :=
  match s with
  | EmptyString => EmptyString
  | String c r => quote_char c ++ quote_chars r
  end.

Definition QuoteJSONString (s : string) : string :=
  dquote ++ quote_chars s ++ dquote.

Definition gap : string := "  ".

(** The text of an array or object from the texts of its members. *)
Definition wrap (opening closing stepback indent : string)
  (partial : list string) : string :=
  match partial with
  | [] => opening ++ closing
  | _ =>
      opening ++ newline ++ indent
        ++ String.concat ("," ++ newline ++ indent) partial
        ++ newline ++ stepback ++ closing
  end.

Section Stringify.

(** [Number::toString], the host's shortest round-trip decimal text of a
    double. *)
Variable Number_toString : float -> string.

(** [None] is the result [undefined]: the property is left out of an
    object and written [null] in an array. *)
Fixpoint SerializeJSONProperty (indent : string) (v : value) {struct v}
  : option string :=
  match v with
  | VUndefined => None
  | VNull => Some "null"
  | VBool b => Some (if b then "true" else "false")
  | VNumber n =>
      Some (if PrimFloat.is_finite n then Number_toString n else "null")
  | VString s => Some (QuoteJSONString s)
  | VArray items =>
      let stepback := indent in
      let indent := stepback ++ gap in
      let partial :=
        List.map (fun item =>
          match item with
          | Some x =>
              match SerializeJSONProperty indent x with
              | Some str => str
              | None => "null"
              end
          | None => "null"
          end) items in
      Some (wrap "[" "]" stepback indent partial)
  | VObject props =>
      let stepback := indent in
      let indent := stepback ++ gap in
      let partial :=
        (fix members (ps : list (string * value)) : list string :=
           match ps with
           | [] => []
           | (k, x) :: r =>
               match SerializeJSONProperty indent x with
               | Some str => (QuoteJSONString k ++ ": " ++ str) :: members r
               | None => members r
               end
           end) props in
      Some (wrap "{" "}" stepback indent partial)
  end.

Definition JSON_stringify (o : object) : string :=
  match SerializeJSONProperty EmptyString (VObject o) with
  | Some str => str
  | None => "undefined"
  end.

End Stringify.

End Js.

(** ** The file system, as far as [fs.promises] is used *)

Module Fs.

Record FileSystem : Type := mkFileSystem {
  files : gmap string string;      (* path -> content *)
  unwritable : gset string;        (* paths on which [writeFile] rejects *)
  undeletable : gset string        (* paths on which [unlink] rejects *)
}.

(** [fs.writeFile(p, c)]: creates or overwrites the file; [None] when the
    promise rejects. *)
Definition writeFile (p c : string) (fs : FileSystem) : option FileSystem :=
  if bool_decide (p ∈ unwritable fs) then None
  else Some (mkFileSystem (<[p := c]> (files fs)) (unwritable fs) (undeletable fs)).

(** [fs.unlink(p)]: rejects when there is no such file. *)
Definition unlink (p : string) (fs : FileSystem) : option FileSystem :=
  if bool_decide (p ∈ undeletable fs) then None
  else match files fs !! p with
       | Some _ => Some (mkFileSystem (delete p (files fs)) (unwritable fs) (undeletable fs))
       | None => None
       end.

End Fs.

(** ** The error catalog ([errors.js]) *)

Module Errors.

Inductive DatabaseError : Type :=
| FILE_NOT_FOUND
| INVALID_JSON
| INVALID_VALUE
| KEY_NOT_FOUND
| OBJECT_NOT_FOUND
| ARRAY_NOT_FOUND.

Definition message (e : DatabaseError) : string :=
  match e with
  | FILE_NOT_FOUND => "The database file could not be found."
  | INVALID_JSON => "The database file contains invalid JSON."
  | INVALID_VALUE => "The value provided cannot be null or undefined."
  | KEY_NOT_FOUND => "The requested key does not exist in the database."
  | OBJECT_NOT_FOUND => "The requested key is not an object."
  | ARRAY_NOT_FOUND => "The requested key is not an array."
  end.

(** [module.exports]: the members of the catalog, by name. *)
Definition exports : list (string * DatabaseError) :=
  [ ("FILE_NOT_FOUND", FILE_NOT_FOUND);
    ("INVALID_JSON", INVALID_JSON);
    ("INVALID_VALUE", INVALID_VALUE);
    ("KEY_NOT_FOUND", KEY_NOT_FOUND);
    ("OBJECT_NOT_FOUND", OBJECT_NOT_FOUND);
    ("ARRAY_NOT_FOUND", ARRAY_NOT_FOUND) ].

(** What a [throw] statement can throw here. *)
Inductive thrown : Type :=
| Thrown (e : DatabaseError)   (* a member of the catalog *)
| ThrownUndefined              (* the value [undefined] *)
| ThrownTypeError              (* raised by the language *)
| ThrownSystemError.           (* raised by [fs] *)

Fixpoint member (name : string) (l : list (string * DatabaseError))
  : thrown :=
  match l with
  | [] => ThrownUndefined
  | (n, e) :: r => if String.eqb n name then Thrown e else member name r
  end.

(** [errors.NAME]: reading a property the catalog lacks gives
    [undefined]. *)
Definition errors (name : string) : thrown := member name exports.

End Errors.

(** ** Class [Database] *)

Module Database.

Import Js Fs Errors.

(** The fields of an instance.  The object [this.data] is its own
    properties together with its prototype. *)
Record instance : Type := mkInstance {
  filePath : string;
  data : object;
  data_prototype : prototype
}.

(** What a method can read and change: the instance, the disk, and the
    members that have been deleted from [Object.prototype]. *)
Record World : Type := mkWorld {
  this : instance;
  disk : FileSystem;
  deleted : gset string
}.

Inductive completion (A : Type) : Type :=
| Normal (a : A)
| Abrupt (t : thrown).

Arguments Normal {A} a.
Arguments Abrupt {A} t.

Definition M (A : Type) : Type := World -> completion A * World.

#[export] Instance M_ret : MRet M := fun A a w => (Normal a, w).

#[export] Instance M_bind : MBind M := fun A B f m w =>
  match m w with
  | (Normal a, w') => f a w'
  | (Abrupt t, w') => (Abrupt t, w')
  end.

Definition throw {A : Type} (t : thrown) : M A := fun w => (Abrupt t, w).

(** [try { body } catch (err) { handler }] *)
Definition try_catch {A : Type} (body : M A) (handler : thrown -> M A) : M A :=
  fun w =>
    match body w with
    | (Normal a, w') => (Normal a, w')
    | (Abrupt t, w') => handler t w'
    end.

(** *** Reading and writing [this.data] *)

(** Whether [Object.prototype] still has the member [k]. *)
Definition live (w : World) (k : string) : bool :=
  in_names k Object_prototype_names && negb (bool_decide (k ∈ deleted w)).

(** The world with other own properties of [this.data]. *)
Definition with_data (d : object) (w : World) : World :=
  mkWorld (mkInstance (filePath (this w)) d (data_prototype (this w)))
    (disk w) (deleted w).

(** The world with another prototype of [this.data]. *)
Definition with_prototype (p : prototype) (w : World) : World :=
  mkWorld (mkInstance (filePath (this w)) (data (this w)) p)
    (disk w) (deleted w).

(** [this.data[key]]: the own property, else what the prototype chain
    gives. *)
Definition Get (key : string) (w : World) : reading :=
  if obj_has key (data (this w)) then Stored (obj_get key (data (this w)))
  else inherited (live w) (data_prototype (this w)) key.

(** [this.data[key] = v]: an own property is overwritten; without one, the
    key ["__proto__"] runs the inherited setter, and any other key becomes a
    new own property. *)
Definition Put (key : string) (v : value) (w : World) : World :=
  if obj_has key (data (this w))
  then with_data (obj_update key v (data (this w))) w
  else if reaches_setter (live w) (data_prototype (this w)) key
  then with_prototype (as_prototype v (data_prototype (this w))) w
  else with_data (obj_define key v (data (this w))) w.

(** The array or object that [this.data[key]] reads, changed in place to
    [v']: it is an own property, a property of the prototype, or (read
    through the [__proto__] getter) the prototype itself. *)
Definition Replace (key : string) (v' : value) (w : World) : World :=
  if obj_has key (data (this w))
  then with_data (obj_update key v' (data (this w))) w
  else match data_prototype (this w) with
       | ObjectAsPrototype props =>
           if obj_has key props
           then with_prototype (ObjectAsPrototype (obj_update key v' props)) w
           else with_prototype (as_prototype v' (data_prototype (this w))) w
       | ArrayAsPrototype items =>
           match array_index key with
           | Some n =>
               with_prototype (ArrayAsPrototype (<[N.to_nat n := Some v']> items)) w
           | None =>
               with_prototype (as_prototype v' (data_prototype (this w))) w
           end
       | _ => w
       end.

(** [delete Object.prototype[key]] *)
Definition delete_member (key : string) (w : World) : World :=
  if live w key then mkWorld (this w) (disk w) ({[key]} ∪ deleted w) else w.

(** The keys that [for (let k in this.data)] visits: the own keys, then the
    enumerable keys of the prototype that no own key shadows. *)
Definition enumerable_keys (w : World) : list string :=
  (Object_keys (data (this w))
   ++ List.filter (fun k => negb (obj_has k (data (this w))))
        (prototype_keys (data_prototype (this w))))%list.

(** [k in this.data], for an enumerable [k]. *)
Definition enumerable_has (k : string) (w : World) : bool :=
  obj_has k (data (this w))
  || in_names k (prototype_keys (data_prototype (this w))).

Definition this_filePath : M string := fun w => (Normal (filePath (this w)), w).
Definition this_data : M object := fun w => (Normal (data (this w)), w).
Definition the_world : M World := fun w => (Normal w, w).

Definition get (key : string) : M reading := fun w => (Normal (Get key w), w).
Definition put (key : string) (v : value) : M unit := fun w =>
  (Normal tt, Put key v w).
Definition replace (key : string) (v' : value) : M unit := fun w =>
  (Normal tt, Replace key v' w).

(** [delete this.data[k]] and the other changes of the own properties. *)
Definition assign_data (d : object) : M unit := fun w =>
  (Normal tt, with_data d w).

(** [this.data = {}] *)
Definition fresh_data : M unit := fun w =>
  (Normal tt, with_prototype ObjectPrototype (with_data [] w)).

Definition fs_writeFile (p c : string) : M unit := fun w =>
  match writeFile p c (disk w) with
  | Some fs' => (Normal tt, mkWorld (this w) fs' (deleted w))
  | None => (Abrupt ThrownSystemError, w)
  end.

Definition fs_unlink (p : string) : M unit := fun w =>
  match unlink p (disk w) with
  | Some fs' => (Normal tt, mkWorld (this w) fs' (deleted w))
  | None => (Abrupt ThrownSystemError, w)
  end.

(** [for (let k in this.data) body(k)]: the keys are those enumerable when
    the loop starts; a key that is gone before its turn is not visited. *)
Fixpoint for_in (keys : list string) (body : string -> M unit) : M unit :=
  match keys with
  | [] => mret tt
  | k :: r =>
      w ← the_world;
      (if enumerable_has k w then body k else mret tt);;
      for_in r body
  end.

Section Methods.

Variable Number_toString : float -> string.

(** Arrays and objects are compared by reference.  A tree does not record
    which elements of the array that [delete] filters are the very object
    passed to [delete]: [same_reference i] tells it for the element at
    index [i]. *)
Variable same_reference : nat -> bool.

Definition save : M unit :=
  try_catch
    (p ← this_filePath;
     d ← this_data;
     fs_writeFile p (JSON_stringify Number_toString d))
    (fun err => throw (errors "FILE_NOT_FOUND")).

Definition set (key value : value) : M unit :=
  if negb (typeof key =? "string")
     || strict_equal value VNull || strict_equal value VUndefined
  then throw (errors "INVALID_VALUE")
  else
    put (string_of key) value;;
    save.

Definition push (key value : value) : M unit :=
  if negb (typeof key =? "string")
     || strict_equal value VNull || strict_equal value VUndefined
  then throw (errors "INVALID_VALUE")
  else
    entry ← get (string_of key);
    (if negb (isArray_reading entry)
     then put (string_of key) (VArray [])
     else mret tt);;
    entry ← get (string_of key);
    match entry with
    | Stored (VArray items) =>
        replace (string_of key) (VArray (arr_push value items))
    | _ => throw ThrownTypeError
    end;;
    save.

Definition objectFetch (key subKey : value) : M reading :=
  if negb (typeof key =? "string") || negb (typeof subKey =? "string")
  then throw (errors "INVALID_VALUE")
  else
    object ← get (string_of key);
    if negb (ToBoolean_reading object) || negb (typeof_reading object =? "object")
    then throw (errors "OBJECT_NOT_FOUND")
    else
      w ← the_world;
      mret (property (live w) (string_of subKey) object).

Definition arrayFetch (key index : value) : M value :=
  if negb (typeof key =? "string") || negb (Number_isInteger index)
  then throw (errors "INVALID_VALUE")
  else
    array ← get (string_of key);
    if negb (isArray_reading array)
    then throw (errors "ARRAY_NOT_FOUND")
    else mret (arr_get_number (number_of index) (items_of_reading array)).

Definition fetch (key : value) : M reading :=
  if negb (typeof key =? "string")
  then throw (errors "INVALID_VALUE")
  else get (string_of key).

Definition remove (key : value) : M unit :=
  if negb (typeof key =? "string")
  then throw (errors "INVALID_VALUE")
  else
    d ← this_data;
    assign_data (obj_delete (string_of key) d);;
    save.

Definition delete (key value : value) : M unit :=
  if negb (typeof key =? "string")
     || strict_equal value VNull || strict_equal value VUndefined
  then throw (errors "INVALID_VALUE")
  else
    entry ← get (string_of key);
    if isArray_reading entry
    then
      put (string_of key)
        (VArray (arr_without same_reference value (items_of_reading entry)));;
      save
    else mret tt.

Definition deleteKey (objectKey key : value) : M unit :=
  if negb (typeof objectKey =? "string") || negb (typeof key =? "string")
  then throw (errors "INVALID_VALUE")
  else
    target ← get (string_of objectKey);
    if ToBoolean_reading target && (typeof_reading target =? "object")
    then
      match target with
      | Stored v =>
          match prop_delete (string_of key) v with
          | Some v' => replace (string_of objectKey) v';; save
          | None => throw ThrownTypeError
          end
      | TheObjectPrototype =>
          (fun w => (Normal tt, delete_member (string_of key) w));;
          save
      | _ => save
      end
    else throw (errors "OBJECT_NOT_FOUND").

Definition deleteEach (key : value) : M unit :=
  if negb (typeof key =? "string")
  then throw (errors "INVALID_VALUE")
  else
    w ← the_world;
    for_in (enumerable_keys w) (fun k =>
      if String.prefix (string_of key) k
      then d ← this_data; assign_data (obj_delete k d)
      else mret tt);;
    save.

Definition clear : M unit :=
  fresh_data;;
  save.

Definition destroy : M unit :=
  try_catch
    (p ← this_filePath;
     fs_unlink p;;
     clear)
    (fun err => throw (errors "FILE_NOT_FOUND")).

(** [this.data.hasOwnProperty(key)]: the method is looked up on
    [this.data] like any property; what a stored property holds cannot be
    called. *)
Definition has (key : value) : M bool :=
  if negb (typeof key =? "string")
  then throw (errors "INVALID_VALUE")
  else
    method ← get "hasOwnProperty";
    match method with
    | BuiltinFunction _ _ =>
        d ← this_data;
        mret (obj_has (string_of key) d)
    | _ => throw ThrownTypeError
    end.

(** The shape shared by [add], [subtract] and [multiply]:
    [this.data[key] op= value]. *)
Definition arithmetic (op : float -> float -> float) (key value : value)
  : M unit :=
  if negb (typeof key =? "string") || negb (typeof value =? "number")
  then throw (errors "INVALID_VALUE")
  else
    entry ← get (string_of key);
    if typeof_reading entry =? "number"
    then
      put (string_of key)
        (VNumber (op (number_of_reading entry) (number_of value)));;
      save
    else throw (errors "INVALID_VALUE").

Definition add : value -> value -> M unit := arithmetic PrimFloat.add.
Definition subtract : value -> value -> M unit := arithmetic PrimFloat.sub.
Definition multiply : value -> value -> M unit := arithmetic PrimFloat.mul.

Definition divide (key value : value) : M unit :=
  if negb (typeof key =? "string") || negb (typeof value =? "number")
  then throw (errors "INVALID_VALUE")
  else
    entry ← get (string_of key);
    if typeof_reading entry =? "number"
    then
      if strict_equal value (VNumber 0)
      then throw (errors "DIVISION_BY_ZERO")
      else
        put (string_of key)
          (VNumber (PrimFloat.div (number_of_reading entry) (number_of value)));;
        save
    else throw (errors "INVALID_VALUE").

Definition getAllKeys : M (list string) :=
  d ← this_data;
  mret (Object_keys d).

Definition getAllValues : M (list value) :=
  d ← this_data;
  mret (Object_values d).

End Methods.

End Database.
(** ** Vocabulary of the statements *)

Module State.

Import Js Fs Errors Database.

(** The world after [fs.unlink(this.filePath)] went through. *)
Definition unlinked (w : World) : World :=
  mkWorld (this w)
    (mkFileSystem (base.delete (filePath (this w)) (files (disk w)))
       (unwritable (disk w)) (undeletable (disk w)))
    (deleted w).

(** The same world, except that writes to [this.filePath] are refused. *)
Definition refuse_writes (w : World) : World :=
  mkWorld (this w)
    (mkFileSystem (files (disk w))
       ({[filePath (this w)]} ∪ unwritable (disk w)) (undeletable (disk w)))
    (deleted w).

(** The world after [this.data = {}]. *)
Definition emptied (w : World) : World :=
  with_prototype ObjectPrototype (with_data [] w).

(** The guard shared by [set], [push] and [delete]. *)
Definition bad_key_or_value (key value : value) : bool :=
  negb (typeof key =? "string")
  || strict_equal value VNull || strict_equal value VUndefined.

(** One turn of the loop body of [deleteEach] on the data. *)
Definition drop_if_prefixed (pre : string) (d : object) (k : string) : object :=
  if String.prefix pre k then obj_delete k d else d.

(** The items of an array; none for any other value. *)
Definition items_of (v : value) : list (option value) :=
  match v with VArray items => items | _ => [] end.

(** The world after the statements of [push] that precede [save]. *)
Definition pushed (k : string) (v : value) (w : World) : World :=
  let w1 := if isArray_reading (Get k w) then w else Put k (VArray []) w in
  Replace k (VArray (arr_push v (items_of_reading (Get k w1)))) w1.

(** The elements of an array, without its holes. *)
Definition present (items : list (option value)) : list value :=
  omap id items.

(** A call of a public mutating method. *)
Inductive mutation : Type :=
| CallSet (key value : value)
| CallPush (key value : value)
| CallDelete (key value : value)
| CallDeleteKey (objectKey key : value)
| CallDeleteEach (key : value)
| CallRemove (key : value)
| CallClear
| CallDestroy.

(** A call of a method that changes [this.data] and then saves: the
    mutating methods and the arithmetic ones. *)
Inductive update : Type :=
| Mutation (m : mutation)
| CallAdd (key value : value)
| CallSubtract (key value : value)
| CallMultiply (key value : value)
| CallDivide (key value : value).

(** [delete] on an entry that is not an array returns without saving. *)
Definition skips_save (m : mutation) (w : World) : bool :=
  match m with
  | CallDelete key _ =>
      negb (isArray_reading (Get (string_of key) w))
  | _ => false
  end.

(** An update that returns without reaching its [save]. *)
Definition returns_unsaved (u : update) (w : World) : bool :=
  match u with
  | Mutation m => skips_save m w
  | _ => false
  end.

(** The disk that the [save] of an update meets: [destroy] has unlinked
    the file by then, the other updates have not touched the disk. *)
Definition disk_at_save (u : update) (w : World) : FileSystem :=
  match u with
  | Mutation CallDestroy => disk (unlinked w)
  | _ => disk w
  end.

(** Two objects with the same keys in the same order whose values have
    the same JSON text at every indentation. *)
Definition same_text (Number_toString : float -> string) (o1 o2 : object) : Prop :=
  Forall2 (fun p q =>
    fst p = fst q
    /\ forall indent,
       SerializeJSONProperty Number_toString indent (snd p)
       = SerializeJSONProperty Number_toString indent (snd q)) o1 o2.

(** [w'] differs from [w] at most in [this.data] and in the file at
    [this.filePath]. *)
Definition own_file_only (w w' : World) : Prop :=
  filePath (this w') = filePath (this w)
  /\ unwritable (disk w') = unwritable (disk w)
  /\ undeletable (disk w') = undeletable (disk w)
  /\ forall p, p <> filePath (this w) ->
     files (disk w') !! p = files (disk w) !! p.

Section WithHost.

Variable Number_toString : float -> string.
Variable same_reference : nat -> bool.

(** What memory holds once the statements of the update [u] that precede
    its [save] have run: [w] is the world when the call starts, [w'] the
    world they leave. *)
Definition remembered (u : update) (w w' : World) : Prop :=
  let others_as_before key :=
    forall k, k <> string_of key -> Get k w' = Get k w in
  let stored_number op key value :=
    Get (string_of key) w'
    = Stored (VNumber (op (number_of_reading (Get (string_of key) w))
                          (number_of value)))
    /\ others_as_before key in
  match u with
  | Mutation (CallSet key value) =>
      string_of key <> "__proto__" ->
      Get (string_of key) w' = Stored value /\ others_as_before key
  | Mutation (CallPush key value) =>
      Get (string_of key) w'
      = Stored (VArray (items_of_reading (Get (string_of key) w)
                        ++ [Some value])%list)
  | Mutation (CallDelete key value) =>
      Get (string_of key) w'
      = Stored (VArray (arr_without same_reference value
                          (items_of_reading (Get (string_of key) w))))
  | Mutation (CallDeleteKey objectKey key) =>
      match Get (string_of objectKey) w with
      | Stored v =>
          exists v', prop_delete (string_of key) v = Some v'
                     /\ Get (string_of objectKey) w' = Stored v'
      | TheObjectPrototype => live w' (string_of key) = false
      | _ => True
      end
  | Mutation (CallDeleteEach key) =>
      (forall k, String.prefix (string_of key) k = true ->
                 obj_has k (data (this w')) = false)
      /\ (forall k, String.prefix (string_of key) k = false ->
                    Get k w' = Get k w)
  | Mutation (CallRemove key) =>
      obj_has (string_of key) (data (this w')) = false
      /\ others_as_before key
  | Mutation CallClear | Mutation CallDestroy =>
      data (this w') = [] /\ data_prototype (this w') = ObjectPrototype
  | CallAdd key value => stored_number PrimFloat.add key value
  | CallSubtract key value => stored_number PrimFloat.sub key value
  | CallMultiply key value => stored_number PrimFloat.mul key value
  | CallDivide key value => stored_number PrimFloat.div key value
  end.

Definition call (m : mutation) : M unit :=
  match m with
  | CallSet key value => Database.set Number_toString key value
  | CallPush key value => Database.push Number_toString key value
  | CallDelete key value =>
      Database.delete Number_toString same_reference key value
  | CallDeleteKey objectKey key => Database.deleteKey Number_toString objectKey key
  | CallDeleteEach key => Database.deleteEach Number_toString key
  | CallRemove key => Database.remove Number_toString key
  | CallClear => Database.clear Number_toString
  | CallDestroy => Database.destroy Number_toString
  end.

Definition perform (u : update) : M unit :=
  match u with
  | Mutation m => call m
  | CallAdd key value => Database.add Number_toString key value
  | CallSubtract key value => Database.subtract Number_toString key value
  | CallMultiply key value => Database.multiply Number_toString key value
  | CallDivide key value => Database.divide Number_toString key value
  end.

(** The document at [this.filePath] is the serialization of [this.data]. *)
Definition synced (w : World) : Prop :=
  files (disk w) !! filePath (this w)
  = Some (JSON_stringify Number_toString (data (this w))).

(** The world after a write of the current data that went through. *)
Definition written (w : World) : World :=
  mkWorld (this w)
    (mkFileSystem
       (<[filePath (this w) := JSON_stringify Number_toString (data (this w))]>
          (files (disk w)))
       (unwritable (disk w)) (undeletable (disk w)))
    (deleted w).

End WithHost.

End State.

(** ** Sample inputs *)

Module Sample.

Import Js Fs Errors Database.

(** A host printer that is exact on the integers below [10^21]; the other
    doubles do not occur in the samples. *)
Definition Number_toString (n : float) : string :=
  if Number_isInteger (VNumber n) then pretty (integer_value n) else "NaN".

(** No element of a stored array is the object passed to [delete]: the
    caller passes fresh values. *)
Definition same_reference (i : nat) : bool := false.

Definition path : string := "/srv/morsel-database.json".

(** A store whose data has the prototype of [{}], in a realm where
    [Object.prototype] is intact. *)
Definition world (d : object) (fs : FileSystem) : World :=
  mkWorld (mkInstance path d ObjectPrototype) fs ∅.

(** [{ name: "morsel", hits: 4, tags: ["a", "b"] }] *)
Definition doc : object :=
  [ ("name", VString "morsel");
    ("hits", VNumber 4);
    ("tags", VArray [Some (VString "a"); Some (VString "b")]) ].

(** The document [doc] in memory and, serialized, on the disk. *)
Definition settled : World :=
  world doc
    (mkFileSystem {[ path := JSON_stringify Number_toString doc ]} ∅ ∅).

(** [settled] after a [set("name", "db")] whose write was refused: memory
    is ahead of the document. *)
Definition ahead : World :=
  snd (Database.set Number_toString (VString "name") (VString "db")
         (State.refuse_writes settled)).

(** [settled] after [set("hits", 5)]. *)
Definition bumped : World :=
  State.written Number_toString
    (Database.with_data (obj_set "hits" (VNumber 5) doc) settled).

(** [settled] after [push("__proto__", 1)]: the array [[1]] is the
    prototype of [this.data], and no key was added. *)
Definition adopted : World :=
  snd (Database.push Number_toString (VString "__proto__") (VNumber 1) settled).

(** [settled] after [destroy()]. *)
Definition destroyed : World :=
  State.written Number_toString (State.emptied (State.unlinked settled)).

(** [{ cfg: { theme: "dark", size: 2 }, scores: [1, NaN, 1] }] *)
Definition config : object :=
  [ ("cfg", VObject [("theme", VString "dark"); ("size", VNumber 2)]);
    ("scores", VArray [Some (VNumber 1); Some (VNumber PrimFloat.nan);
                       Some (VNumber 1)]) ].

(** The document [config] in memory, and no backing file on the disk. *)
Definition fileless : World := world config (mkFileSystem ∅ ∅ ∅).

End Sample.

(** ** Properties *)

Import Js Fs Errors Database State.

#[local] Arguments Number_isInteger : simpl never.
#[local] Arguments integer_value : simpl never.

(** *** Own properties *)

(** *** Own properties *)

Lemma obj_get_absent (k : string) (o : object) :
  obj_has k o = false -> obj_get k o = VUndefined.
Proof.
  induction o as [|[k' v'] r IH]; simpl; [reflexivity|].
  destruct (String.eqb k' k); simpl; [discriminate | exact IH].
Qed.

Lemma obj_get_update (k : string) (v : value) (o : object) :
  obj_has k o = true -> obj_get k (obj_update k v o) = v.
Proof.
  induction o as [|[k' v'] r IH]; simpl; [discriminate|].
  destruct (String.eqb k' k) eqn:E; simpl.
  - intros _. now rewrite String.eqb_refl.
  - rewrite E. exact IH.
Qed.

Lemma obj_get_insert_index (n : N) (k : string) (v : value) (o : object) :
  obj_has k o = false -> obj_get k (obj_insert_index n k v o) = v.
Proof.
  induction o as [|[k' v'] r IH]; simpl.
  - intros _. now rewrite String.eqb_refl.
  - destruct (String.eqb k' k) eqn:E; simpl; [discriminate|]. intros H.
    destruct (array_index k') as [n'|]; [destruct (n' <? n)%N|]; simpl;
      rewrite ?E, ?String.eqb_refl; auto.
Qed.

Lemma obj_get_app_absent (k : string) (v : value) (o : object) :
  obj_has k o = false -> obj_get k (o ++ [(k, v)])%list = v.
Proof.
  induction o as [|[k' v'] r IH]; simpl.
  - intros _. now rewrite String.eqb_refl.
  - destruct (String.eqb k' k); simpl; [discriminate | exact IH].
Qed.

Lemma obj_get_set (k : string) (v : value) (o : object) :
  obj_get k (obj_set k v o) = v.
Proof.
  unfold obj_set, obj_define. destruct (obj_has k o) eqn:H.
  - now apply obj_get_update.
  - destruct (array_index k).
    + now apply obj_get_insert_index.
    + now apply obj_get_app_absent.
Qed.

Lemma obj_has_of_get (k : string) (o : object) :
  obj_get k o <> VUndefined -> obj_has k o = true.
Proof.
  intros H. destruct (obj_has k o) eqn:E; [reflexivity|].
  now rewrite obj_get_absent in H.
Qed.

Lemma obj_delete_absent (k : string) (o : object) :
  obj_has k o = false -> obj_delete k o = o.
Proof.
  induction o as [|[k' v'] r IH]; simpl; [reflexivity|].
  destruct (String.eqb k' k); simpl; [discriminate|].
  intros H. now rewrite IH.
Qed.

Lemma obj_delete_filter (k : string) (o : object) :
  obj_delete k o = List.filter (fun p => negb (String.eqb (fst p) k)) o.
Proof.
  induction o as [|[k' v'] r IH]; simpl; [reflexivity|].
  destruct (String.eqb k' k); simpl; now rewrite IH.
Qed.

(** *** More on own properties *)

Lemma obj_get_update_other (k k' : string) (v : value) (o : object) :
  k' <> k -> obj_get k' (obj_update k v o) = obj_get k' o.
Proof.
  intros N. induction o as [|[k0 v0] r IH]; simpl; [reflexivity|].
  destruct (String.eqb k0 k) eqn:E; simpl.
  - apply String.eqb_eq in E. subst k0.
    assert (String.eqb k k' = false) as -> by (apply String.eqb_neq; congruence).
    reflexivity.
  - now rewrite IH.
Qed.

Lemma obj_get_insert_index_other (n : N) (k k' : string) (v : value) (o : object) :
  k' <> k -> obj_get k' (obj_insert_index n k v o) = obj_get k' o.
Proof.
  intros N. assert (String.eqb k k' = false) as E
    by (apply String.eqb_neq; congruence).
  induction o as [|[k0 v0] r IH]; simpl; [now rewrite E|].
  destruct (array_index k0) as [n'|]; [destruct (n' <? n)%N|]; simpl;
    rewrite ?E, ?IH; reflexivity.
Qed.

Lemma obj_get_app_other (k k' : string) (v : value) (o : object) :
  k' <> k -> obj_get k' (o ++ [(k, v)])%list = obj_get k' o.
Proof.
  intros N. assert (String.eqb k k' = false) as E
    by (apply String.eqb_neq; congruence).
  induction o as [|[k0 v0] r IH]; simpl; [now rewrite E|].
  now rewrite IH.
Qed.

Lemma obj_get_set_other (k k' : string) (v : value) (o : object) :
  k' <> k -> obj_get k' (obj_set k v o) = obj_get k' o.
Proof.
  intros N. unfold obj_set, obj_define. destruct (obj_has k o).
  - now apply obj_get_update_other.
  - destruct (array_index k).
    + now apply obj_get_insert_index_other.
    + now apply obj_get_app_other.
Qed.

Lemma obj_has_In (k : string) (o : object) :
  obj_has k o = true <-> In k (Object_keys o).
Proof.
  induction o as [|[k0 v0] r IH]; simpl; [split; [discriminate | tauto]|].
  rewrite orb_true_iff, IH, String.eqb_eq. tauto.
Qed.

Lemma Object_keys_update (k : string) (v : value) (o : object) :
  Object_keys (obj_update k v o) = Object_keys o.
Proof.
  induction o as [|[k0 v0] r IH]; simpl; [reflexivity|].
  destruct (String.eqb k0 k) eqn:E; simpl.
  - apply String.eqb_eq in E. now subst.
  - now rewrite IH.
Qed.

Lemma Object_keys_insert_index (n : N) (k : string) (v : value) (o : object) :
  exists l1 l2,
    Object_keys o = (l1 ++ l2)%list
    /\ Object_keys (obj_insert_index n k v o) = (l1 ++ k :: l2)%list.
Proof.
  induction o as [|[k0 v0] r (l1 & l2 & H1 & H2)]; simpl.
  - exists [], []. auto.
  - destruct (array_index k0) as [n'|]; [destruct (n' <? n)%N|]; simpl.
    + exists (k0 :: l1), l2. simpl. now rewrite H1, H2.
    + exists [], (k0 :: Object_keys r). auto.
    + exists [], (k0 :: Object_keys r). auto.
Qed.

Lemma obj_has_set (k k' : string) (v : value) (o : object) :
  obj_has k' (obj_set k v o) = String.eqb k k' || obj_has k' o.
Proof.
  apply eq_true_iff_eq. rewrite orb_true_iff, !obj_has_In, String.eqb_eq.
  unfold obj_set, obj_define. destruct (obj_has k o) eqn:H.
  - rewrite Object_keys_update. apply obj_has_In in H.
    split; [auto | intros [->|]; auto].
  - destruct (array_index k) as [n|].
    + destruct (Object_keys_insert_index n k v o) as (l1 & l2 & H1 & H2).
      rewrite H1, H2, !in_app_iff. simpl. tauto.
    + unfold Object_keys. rewrite List.map_app, in_app_iff. simpl. tauto.
Qed.

Lemma obj_has_delete (k k' : string) (o : object) :
  obj_has k' (obj_delete k o) = negb (String.eqb k k') && obj_has k' o.
Proof.
  induction o as [|[k0 v0] r IH]; simpl; [now rewrite andb_false_r|].
  destruct (String.eqb k0 k) eqn:E; simpl.
  - apply String.eqb_eq in E. subst k0. rewrite IH.
    now destruct (String.eqb k k').
  - rewrite IH. destruct (String.eqb k0 k') eqn:E'; simpl; [|reflexivity].
    apply String.eqb_eq in E'. subst k0.
    now rewrite String.eqb_sym, E.
Qed.

Lemma obj_get_delete_other (k k' : string) (o : object) :
  k' <> k -> obj_get k' (obj_delete k o) = obj_get k' o.
Proof.
  intros N. induction o as [|[k0 v0] r IH]; simpl; [reflexivity|].
  destruct (String.eqb k0 k) eqn:E; simpl.
  - apply String.eqb_eq in E. subst k0.
    assert (String.eqb k k' = false) as -> by (apply String.eqb_neq; congruence).
    exact IH.
  - now rewrite IH.
Qed.

Lemma obj_update_update (k : string) (v1 v2 : value) (o : object) :
  obj_update k v2 (obj_update k v1 o) = obj_update k v2 o.
Proof.
  induction o as [|[k0 v0] r IH]; simpl; [reflexivity|].
  destruct (String.eqb k0 k) eqn:E; simpl.
  - now rewrite String.eqb_refl.
  - now rewrite E, IH.
Qed.

Lemma obj_update_insert_index (n : N) (k : string) (v1 v2 : value) (o : object) :
  obj_has k o = false ->
  obj_update k v2 (obj_insert_index n k v1 o) = obj_insert_index n k v2 o.
Proof.
  induction o as [|[k0 v0] r IH]; simpl.
  - intros _. now rewrite String.eqb_refl.
  - destruct (String.eqb k0 k) eqn:E; simpl; [discriminate|]. intros H.
    destruct (array_index k0) as [n'|]; [destruct (n' <? n)%N|]; simpl;
      rewrite ?E, ?String.eqb_refl, ?IH; auto.
Qed.

Lemma obj_update_app (k : string) (v1 v2 : value) (o : object) :
  obj_has k o = false ->
  obj_update k v2 (o ++ [(k, v1)])%list = (o ++ [(k, v2)])%list.
Proof.
  induction o as [|[k0 v0] r IH]; simpl.
  - intros _. now rewrite String.eqb_refl.
  - destruct (String.eqb k0 k) eqn:E; simpl; [discriminate|]. intros H.
    now rewrite IH.
Qed.

Lemma obj_set_set (k : string) (v1 v2 : value) (o : object) :
  obj_set k v2 (obj_set k v1 o) = obj_set k v2 o.
Proof.
  unfold obj_set at 1. rewrite obj_has_set, String.eqb_refl. simpl.
  unfold obj_set, obj_define. destruct (obj_has k o) eqn:H.
  - apply obj_update_update.
  - destruct (array_index k).
    + now apply obj_update_insert_index.
    + now apply obj_update_app.
Qed.

Lemma obj_update_get (k : string) (o : object) :
  obj_update k (obj_get k o) o = o.
Proof.
  induction o as [|[k0 v0] r IH]; simpl; [reflexivity|].
  destruct (String.eqb k0 k) eqn:E.
  - apply String.eqb_eq in E. now subst.
  - now rewrite IH.
Qed.

(** *** [deleteEach] *)

Lemma obj_has_filter_keys (f : string -> bool) (k : string) (o : object) :
  obj_has k (List.filter (fun p => f (fst p)) o) = f k && obj_has k o.
Proof.
  induction o as [|[k0 v0] r IH]; simpl; [now rewrite andb_false_r|].
  destruct (String.eqb k0 k) eqn:E.
  - apply String.eqb_eq in E. subst k0.
    destruct (f k); simpl; [now rewrite String.eqb_refl | exact IH].
  - destruct (f k0); simpl; rewrite ?E; exact IH.
Qed.

Lemma obj_get_filter_keys (f : string -> bool) (k : string) (o : object) :
  f k = true -> obj_get k (List.filter (fun p => f (fst p)) o) = obj_get k o.
Proof.
  intros H. induction o as [|[k0 v0] r IH]; simpl; [reflexivity|].
  destruct (String.eqb k0 k) eqn:E.
  - apply String.eqb_eq in E. subst k0. rewrite H. simpl.
    now rewrite String.eqb_refl.
  - destruct (f k0); simpl; rewrite ?E; exact IH.
Qed.

Lemma Object_keys_filter (f : string -> bool) (o : object) :
  Object_keys (List.filter (fun p => f (fst p)) o) = List.filter f (Object_keys o).
Proof.
  induction o as [|[k0 v0] r IH]; simpl; [reflexivity|].
  destruct (f k0); simpl; now rewrite IH.
Qed.

Lemma drop_if_prefixed_filter (pre : string) (d : object) (k : string) :
  drop_if_prefixed pre d k
  = List.filter (fun p => negb (String.prefix pre (fst p) && String.eqb (fst p) k)) d.
Proof.
  unfold drop_if_prefixed. induction d as [|[k' v'] r IH]; simpl.
  - now destruct (String.prefix pre k).
  - destruct (String.eqb k' k) eqn:E.
    + apply String.eqb_eq in E. subst k'.
      destruct (String.prefix pre k); simpl; [exact IH | now rewrite <- IH].
    + rewrite andb_false_r. simpl.
      destruct (String.prefix pre k); now rewrite <- IH.
Qed.

Lemma fold_drop_filter (pre : string) (ks : list string) (d : object) :
  fold_left (drop_if_prefixed pre) ks d
  = List.filter (fun p =>
      negb (String.prefix pre (fst p) && existsb (String.eqb (fst p)) ks)) d.
Proof.
  revert d. induction ks as [|k r IH]; intros d; simpl.
  - induction d as [|p d IHd]; simpl; [reflexivity|].
    rewrite andb_false_r. simpl. now rewrite <- IHd.
  - rewrite IH, drop_if_prefixed_filter. clear IH.
    induction d as [|p d IHd]; simpl; [reflexivity|].
    destruct (String.prefix pre (fst p)) eqn:P,
             (String.eqb (fst p) k) eqn:E,
             (existsb (String.eqb (fst p)) r) eqn:X;
      simpl; rewrite ?P, ?X; simpl; now rewrite ?IHd.
Qed.

(** *** [deleteEach] with the empty prefix *)


(** *** [delete] *)

Lemma arr_filter_In (f : value -> bool) (x : value) (items : list (option value)) :
  In (Some x) (arr_filter f items) <-> In (Some x) items /\ f x = true.
Proof.
  induction items as [|[y|] r IH]; simpl.
  - tauto.
  - destruct (f y) eqn:E; simpl; rewrite IH; split.
    + intros [H|H]; [inversion H; subst; auto | tauto].
    + intros [[H|H] F]; [left; exact H | right; auto].
    + tauto.
    + intros [[H|H] F]; [inversion H; subst; congruence | auto].
  - rewrite IH. split; [tauto|]. intros [[H|H] F]; [discriminate | auto].
Qed.

Lemma arr_filter_no_hole (f : value -> bool) (items : list (option value)) :
  ~ In None (arr_filter f items).
Proof.
  induction items as [|[y|] r IH]; simpl; auto.
  destruct (f y); simpl; [intros [H|H]; [discriminate | auto] | auto].
Qed.

Lemma arr_filter_sublist (f : value -> bool) (items : list (option value)) :
  sublist (arr_filter f items) items.
Proof.
  induction items as [|[y|] r IH]; simpl.
  - constructor.
  - destruct (f y); now constructor.
  - now constructor.
Qed.

Lemma arr_filter_idem (f : value -> bool) (items : list (option value)) :
  arr_filter f (arr_filter f items) = arr_filter f items.
Proof.
  induction items as [|[y|] r IH]; simpl; auto.
  destruct (f y) eqn:E; simpl; rewrite ?E, IH; reflexivity.
Qed.

Lemma arr_filter_all (f : value -> bool) (items : list (option value)) :
  (forall x, f x = true) -> ~ In None items -> arr_filter f items = items.
Proof.
  intros A. induction items as [|[y|] r IH]; simpl; intros H.
  - reflexivity.
  - rewrite A, IH; [reflexivity | tauto].
  - tauto.
Qed.

(** *** Numbers that are not finite *)

Lemma SFeqb_refl_not_nan (x : spec_float) :
  SFeqb x x = false -> x = S754_nan.
Proof.
  destruct x as [s|s| |s m e]; unfold SFeqb; simpl; try discriminate; auto.
  - now destruct s.
  - destruct s; rewrite Z.compare_refl, Pos.compare_refl; discriminate.
Qed.

Lemma eqb_nan_r (x n : float) :
  PrimFloat.is_nan n = true -> PrimFloat.eqb x n = false.
Proof.
  unfold PrimFloat.is_nan. rewrite negb_true_iff, !FloatAxioms.eqb_spec.
  intros H. apply SFeqb_refl_not_nan in H. rewrite H.
  unfold SFeqb. now destruct (Prim2SF x).
Qed.

(** *** Guards of the arithmetic methods *)

Lemma typeof_not_number (v : value) :
  typeof v <> "number" -> (typeof v =? "number") = false.
Proof. intros H. now apply String.eqb_neq. Qed.

(** *** Guards and failures *)

Lemma typeof_not_string (v : value) :
  typeof v <> "string" -> (typeof v =? "string") = false.
Proof. intros H. now apply String.eqb_neq. Qed.

(** *** Arrays *)

Lemma not_null_undefined (key : string) (value : value) :
  value <> VNull -> value <> VUndefined ->
  bad_key_or_value (VString key) value = false.
Proof.
  intros Hn Hu. unfold bad_key_or_value. simpl.
  destruct value; simpl; congruence.
Qed.


Lemma strict_equal_at_primitive (same_reference : nat -> bool) (value : value)
  (i : nat) (item : Js.value) :
  is_primitive value = true ->
  strict_equal_at same_reference value i item = strict_equal item value.
Proof. destruct value; try discriminate; now destruct item. Qed.

(** For a primitive argument the callback of [delete] looks at the item
    only. *)
Lemma arr_without_primitive (same_reference : nat -> bool) (value : value)
  (items : list (option Js.value)) :
  is_primitive value = true ->
  arr_without same_reference value items
  = arr_filter (fun item => negb (strict_equal item value)) items.
Proof.
  intros P. unfold arr_without. generalize 0%nat.
  induction items as [|[x|] r IH]; intros i; simpl; [reflexivity| |apply IH].
  rewrite (strict_equal_at_primitive _ _ _ _ P).
  destruct (negb (strict_equal x value)); now rewrite IH.
Qed.

Lemma arr_filter_present (f : value -> bool) (items : list (option value)) :
  arr_filter f items = List.map Some (List.filter f (present items)).
Proof.
  induction items as [|[x|] r IH]; simpl; [reflexivity| |exact IH].
  unfold present in *. simpl. destruct (f x); simpl; now rewrite IH.
Qed.
(** *** Reading and writing [this.data] *)

Lemma with_data_same (w : World) : with_data (data (this w)) w = w.
Proof. now destruct w as [[p d pr] fs del]. Qed.

Lemma obj_has_update (k k' : string) (v : value) (o : object) :
  obj_has k' (obj_update k v o) = obj_has k' o.
Proof.
  apply eq_true_iff_eq. now rewrite !obj_has_In, Object_keys_update.
Qed.

Lemma Get_with_data (k : string) (d : object) (w : World) :
  Get k (with_data d w) =
  if obj_has k d then Stored (obj_get k d)
  else inherited (live w) (data_prototype (this w)) k.
Proof. reflexivity. Qed.

Lemma Get_with_prototype (k : string) (p : prototype) (w : World) :
  Get k (with_prototype p w) =
  if obj_has k (data (this w)) then Stored (obj_get k (data (this w)))
  else inherited (live w) p k.
Proof. reflexivity. Qed.

Lemma Get_own (k : string) (w : World) :
  obj_has k (data (this w)) = true ->
  Get k w = Stored (obj_get k (data (this w))).
Proof. intros H. unfold Get. now rewrite H. Qed.

(** A stored value read at a key that is no own property of [this.data]
    and is not ["__proto__"] comes from an own property of the prototype. *)
Lemma from_Object_prototype_stored (lv : string -> bool) (rp : reading)
  (k : string) (x : value) :
  from_Object_prototype lv rp k = Stored x ->
  x = VUndefined \/ (k = "__proto__" /\ lv "__proto__" = true /\ rp = Stored x).
Proof.
  unfold from_Object_prototype. destruct (lv k) eqn:L.
  - destruct (String.eqb k "__proto__") eqn:E; [|discriminate].
    apply String.eqb_eq in E. subst k. auto.
  - intros H. inversion H. auto.
Qed.

Lemma from_Array_prototype_stored (lv : string -> bool) (rp : reading)
  (k : string) (x : value) :
  from_Array_prototype lv rp k = Stored x ->
  x = VUndefined \/ (k = "__proto__" /\ lv "__proto__" = true /\ rp = Stored x).
Proof.
  unfold from_Array_prototype.
  destruct (in_names k Array_prototype_names); [discriminate|].
  apply from_Object_prototype_stored.
Qed.

Lemma Get_not_ArrayPrototype (k : string) (w : World) :
  Get k w <> TheArrayPrototype.
Proof.
  unfold Get. destruct (obj_has k (data (this w))); [discriminate|].
  unfold inherited, from_Array_prototype, from_Object_prototype.
  destruct (data_prototype (this w)) as [| |items|props]; simpl;
    repeat match goal with
           | |- context [match ?x with _ => _ end] => destruct x
           | |- context [if ?x then _ else _] => destruct x
           end; discriminate.
Qed.

Lemma Get_isArray (k : string) (w : World) :
  isArray_reading (Get k w) = true ->
  Get k w = Stored (VArray (items_of_reading (Get k w))).
Proof.
  pose proof (Get_not_ArrayPrototype k w) as N.
  destruct (Get k w) as [[]| | |]; simpl; try discriminate; congruence.
Qed.

Lemma Get_not_isArray (k : string) (w : World) :
  isArray_reading (Get k w) = false -> items_of_reading (Get k w) = [].
Proof. destruct (Get k w) as [[]| | |]; simpl; try discriminate; auto. Qed.

(** An assignment to a key other than ["__proto__"], or to an own key,
    creates or overwrites an own property. *)
Lemma reaches_setter_ordinary (lv : string -> bool) (p : prototype) (k : string) :
  k <> "__proto__" -> reaches_setter lv p k = false.
Proof.
  intros N. unfold reaches_setter.
  now rewrite (proj2 (String.eqb_neq k "__proto__") N).
Qed.

Lemma Put_own_property (k : string) (v : value) (w : World) :
  obj_has k (data (this w)) = true
  \/ reaches_setter (live w) (data_prototype (this w)) k = false ->
  Put k v w = with_data (obj_set k v (data (this w))) w.
Proof.
  unfold Put, obj_set. destruct (obj_has k (data (this w))); [reflexivity|].
  intros [H|H]; [discriminate | now rewrite H].
Qed.

Lemma Put_ordinary (k : string) (v : value) (w : World) :
  k <> "__proto__" ->
  Put k v w = with_data (obj_set k v (data (this w))) w.
Proof.
  intros N. apply Put_own_property. right. now apply reaches_setter_ordinary.
Qed.

Lemma Get_Put_same (k : string) (v : value) (w : World) :
  k <> "__proto__" -> Get k (Put k v w) = Stored v.
Proof.
  intros N. rewrite (Put_ordinary _ _ _ N), Get_with_data.
  now rewrite obj_has_set, String.eqb_refl, obj_get_set.
Qed.

Lemma Get_Put_other (k k' : string) (v : value) (w : World) :
  k <> "__proto__" -> k' <> k -> Get k' (Put k v w) = Get k' w.
Proof.
  intros N N'. rewrite (Put_ordinary _ _ _ N), Get_with_data. unfold Get.
  rewrite obj_has_set, obj_get_set_other by assumption.
  now rewrite (proj2 (String.eqb_neq k k')) by congruence.
Qed.

(** The [__proto__] getter finds an array that was installed as the
    prototype. *)
Lemma inherited_array_proto (lv : string -> bool) (items : list (option value)) :
  lv "__proto__" = true ->
  inherited lv (ArrayAsPrototype items) "__proto__" = Stored (VArray items).
Proof.
  intros L. unfold inherited, from_Array_prototype, from_Object_prototype.
  simpl. now rewrite L.
Qed.

Lemma reaches_setter_live (lv : string -> bool) (p : prototype) (k : string) :
  reaches_setter lv p k = true -> k = "__proto__" /\ lv "__proto__" = true.
Proof.
  unfold reaches_setter. rewrite !andb_true_iff, String.eqb_eq. tauto.
Qed.

(** An array that is assigned reads back, whatever the key. *)
Lemma Get_Put_array (k : string) (items : list (option value)) (w : World) :
  Get k (Put k (VArray items) w) = Stored (VArray items).
Proof.
  unfold Put. destruct (obj_has k (data (this w))) eqn:H.
  - rewrite Get_with_data, obj_has_update, H. now rewrite obj_get_update.
  - destruct (reaches_setter (live w) (data_prototype (this w)) k) eqn:R.
    + apply reaches_setter_live in R. destruct R as [-> L].
      rewrite Get_with_prototype, H. now apply inherited_array_proto.
    + rewrite Get_with_data.
      assert (obj_has k (obj_define k (VArray items) (data (this w))) = true) as D.
      { pose proof (obj_has_set k k (VArray items) (data (this w))) as S.
        unfold obj_set in S. rewrite H in S. now rewrite S, String.eqb_refl. }
      rewrite D. pose proof (obj_get_set k (VArray items) (data (this w))) as G.
      unfold obj_set in G. rewrite H in G. now rewrite G.
Qed.

(** An array read at a key and changed in place reads back changed. *)
Lemma Get_Replace_array (k : string) (items' : list (option value)) (w : World) :
  isArray_reading (Get k w) = true ->
  Get k (Replace k (VArray items') w) = Stored (VArray items').
Proof.
  intros A. apply Get_isArray in A. revert A.
  generalize (items_of_reading (Get k w)). intros items G.
  unfold Get in G. unfold Replace.
  destruct (obj_has k (data (this w))) eqn:H.
  - rewrite Get_with_data, obj_has_update, H. now rewrite obj_get_update.
  - destruct (data_prototype (this w)) as [| |pitems|props] eqn:P; simpl in G.
    + apply from_Object_prototype_stored in G.
      destruct G as [G|(_ & _ & G)]; discriminate.
    + discriminate.
    + unfold arr_own in G. destruct (array_index k) as [n|] eqn:I.
      * rewrite Get_with_prototype, H. simpl. unfold arr_own. rewrite I.
        destruct (pitems !! N.to_nat n) as [[x|]|] eqn:E.
        -- rewrite list_lookup_insert_eq; [reflexivity|].
           apply lookup_lt_is_Some. eauto.
        -- apply from_Array_prototype_stored in G.
           destruct G as [G|(-> & _ & _)]; discriminate.
        -- apply from_Array_prototype_stored in G.
           destruct G as [G|(-> & _ & _)]; discriminate.
      * destruct (String.eqb k "length"); [discriminate|].
        apply from_Array_prototype_stored in G.
        destruct G as [G|(-> & L & _)]; [discriminate|].
        rewrite Get_with_prototype, H. now apply inherited_array_proto.
    + unfold obj_own in G. destruct (obj_has k props) eqn:Hp.
      * rewrite Get_with_prototype, H. simpl. unfold obj_own.
        rewrite obj_has_update, Hp. now rewrite obj_get_update.
      * apply from_Object_prototype_stored in G.
        destruct G as [G|(-> & L & _)]; [discriminate|].
        rewrite Get_with_prototype, H. now apply inherited_array_proto.
Qed.

(** After the statements of [push], the key reads as the former items
    followed by the pushed value. *)
Lemma Get_pushed (k : string) (v : value) (w : World) :
  Get k (pushed k v w)
  = Stored (VArray (items_of_reading (Get k w) ++ [Some v])%list).
Proof.
  unfold pushed. destruct (isArray_reading (Get k w)) eqn:A.
  - now apply Get_Replace_array.
  - rewrite Get_Put_array. simpl. rewrite (Get_not_isArray _ _ A).
    apply Get_Replace_array. now rewrite Get_Put_array.
Qed.

(** No statement of a method changes [this.filePath] or touches the disk
    except through [fs]. *)
Lemma Put_frame (k : string) (v : value) (w : World) :
  filePath (this (Put k v w)) = filePath (this w)
  /\ disk (Put k v w) = disk w /\ deleted (Put k v w) = deleted w.
Proof.
  unfold Put. destruct (obj_has k (data (this w))); [now simpl|].
  now destruct (reaches_setter _ _ _).
Qed.

Lemma Replace_frame (k : string) (v : value) (w : World) :
  filePath (this (Replace k v w)) = filePath (this w)
  /\ disk (Replace k v w) = disk w /\ deleted (Replace k v w) = deleted w.
Proof.
  unfold Replace. destruct (obj_has k (data (this w))); [now simpl|].
  destruct (data_prototype (this w)); simpl; auto.
  - now destruct (array_index k).
  - now destruct (obj_has k props).
Qed.

Lemma pushed_frame (k : string) (v : value) (w : World) :
  filePath (this (pushed k v w)) = filePath (this w)
  /\ disk (pushed k v w) = disk w /\ deleted (pushed k v w) = deleted w.
Proof.
  unfold pushed.
  destruct (isArray_reading (Get k w)).
  - apply Replace_frame.
  - destruct (Replace_frame k (VArray (arr_push v (items_of_reading
                 (Get k (Put k (VArray []) w))))) (Put k (VArray []) w))
      as (A & B & C).
    destruct (Put_frame k (VArray []) w) as (A' & B' & C').
    rewrite A, B, C. auto.
Qed.

Lemma delete_member_frame (k : string) (w : World) :
  this (delete_member k w) = this w /\ disk (delete_member k w) = disk w.
Proof. unfold delete_member. now destruct (live w k). Qed.

(** *** The loop of [deleteEach] *)

Lemma for_in_deleteEach (pre : string) (ks : list string) (w : World) :
  for_in ks (fun k =>
    if String.prefix pre k
    then d ← this_data; assign_data (obj_delete k d)
    else mret tt) w
  = (Normal tt, with_data (fold_left (drop_if_prefixed pre) ks (data (this w))) w).
Proof.
  revert w. induction ks as [|k r IH]; intros w; simpl.
  - now rewrite with_data_same.
  - unfold mbind, M_bind, the_world at 1. simpl.
    unfold drop_if_prefixed at 2.
    destruct (enumerable_has k w) eqn:Hk.
    + destruct (String.prefix pre k); simpl.
      * unfold this_data, assign_data. simpl. now rewrite IH.
      * unfold mret, M_ret. now rewrite IH.
    + unfold mret, M_ret. rewrite IH.
      assert (obj_has k (data (this w)) = false) as Ho.
      { unfold enumerable_has in Hk. now apply orb_false_iff in Hk. }
      rewrite (obj_delete_absent _ _ Ho). now destruct (String.prefix pre k).
Qed.

(** The data after the loop of [deleteEach(pre)]: the properties whose key
    does not start with [pre], in their order. *)
Lemma fold_drop_keys (pre : string) (more : list string) (d : object) :
  fold_left (drop_if_prefixed pre) (Object_keys d ++ more)%list d
  = List.filter (fun p => negb (String.prefix pre (fst p))) d.
Proof.
  rewrite fold_drop_filter. apply List.filter_ext_in.
  intros p Hp. f_equal.
  assert (existsb (String.eqb (fst p)) (Object_keys d ++ more) = true) as ->.
  { apply existsb_exists. exists (fst p). split.
    - apply in_or_app. left. unfold Object_keys. now apply List.in_map.
    - apply String.eqb_refl. }
  apply andb_true_r.
Qed.

(** An object read at a key and changed in place, without a new own
    ["__proto__"], reads back changed. *)
Lemma Get_Replace_object (k : string) (props props' : object) (w : World) :
  Get k w = Stored (VObject props) ->
  (obj_has "__proto__" props' = true -> obj_has "__proto__" props = true) ->
  Get k (Replace k (VObject props') w) = Stored (VObject props').
Proof.
  intros G S. unfold Get in G. unfold Replace.
  destruct (obj_has k (data (this w))) eqn:H.
  - rewrite Get_with_data, obj_has_update, H. now rewrite obj_get_update.
  - destruct (data_prototype (this w)) as [| |pitems|pprops] eqn:P; simpl in G.
    + apply from_Object_prototype_stored in G.
      destruct G as [G|(_ & _ & G)]; discriminate.
    + discriminate.
    + unfold arr_own in G. destruct (array_index k) as [n|] eqn:I.
      * rewrite Get_with_prototype, H. simpl. unfold arr_own. rewrite I.
        destruct (pitems !! N.to_nat n) as [[x|]|] eqn:E.
        -- rewrite list_lookup_insert_eq; [reflexivity|].
           apply lookup_lt_is_Some. eauto.
        -- apply from_Array_prototype_stored in G.
           destruct G as [G|(_ & _ & G)]; discriminate.
        -- apply from_Array_prototype_stored in G.
           destruct G as [G|(_ & _ & G)]; discriminate.
      * destruct (String.eqb k "length"); [discriminate|].
        apply from_Array_prototype_stored in G.
        destruct G as [G|(_ & _ & G)]; discriminate.
    + unfold obj_own in G. destruct (obj_has k pprops) eqn:Hp.
      * rewrite Get_with_prototype, H. simpl. unfold obj_own.
        rewrite obj_has_update, Hp. now rewrite obj_get_update.
      * apply from_Object_prototype_stored in G.
        destruct G as [G|(-> & L & G)]; [discriminate|].
        injection G as ->.
        rewrite Get_with_prototype, H. simpl. unfold obj_own.
        destruct (obj_has "__proto__" props') eqn:Hp'.
        -- specialize (S eq_refl). congruence.
        -- unfold from_Object_prototype. now rewrite L.
Qed.

(** What [deleteKey] changes in place reads back changed. *)
Lemma Get_Replace_deleted (ok k : string) (v v' : value) (w : World) :
  Get ok w = Stored v -> typeof v = "object" -> v <> VNull ->
  prop_delete k v = Some v' ->
  Get ok (Replace ok v' w) = Stored v'.
Proof.
  intros G T N D. destruct v; try discriminate; try congruence.
  - simpl in D. destruct (arr_delete k items) as [items'|]; [|discriminate].
    injection D as <-. apply Get_Replace_array. now rewrite G.
  - simpl in D. injection D as <-. apply (Get_Replace_object _ _ _ _ G).
    rewrite obj_has_delete. now intros [_ ?]%andb_true_iff.
Qed.

(** An assignment to a key that reads as a number writes an own
    property. *)
Lemma Put_number (k : string) (v : value) (w : World) :
  typeof_reading (Get k w) = "number" ->
  Put k v w = with_data (obj_set k v (data (this w))) w.
Proof.
  intros T. apply Put_own_property.
  unfold Get in T. destruct (obj_has k (data (this w))); [now left|].
  right. unfold reaches_setter.
  destruct (String.eqb_spec k "__proto__") as [->|N]; [|reflexivity].
  destruct (live w "__proto__") eqn:L; [|reflexivity].
  destruct (data_prototype (this w)) as [| |pitems|pprops]; simpl in T |- *.
  - unfold from_Object_prototype in T. rewrite L in T. discriminate.
  - reflexivity.
  - unfold from_Array_prototype, from_Object_prototype in T.
    rewrite L in T. discriminate.
  - unfold obj_own in T. destruct (obj_has "__proto__" pprops); [reflexivity|].
    unfold from_Object_prototype in T. rewrite L in T. discriminate.
Qed.

Lemma Get_set_same (k : string) (v : value) (w : World) :
  Get k (with_data (obj_set k v (data (this w))) w) = Stored v.
Proof.
  now rewrite Get_with_data, obj_has_set, String.eqb_refl, obj_get_set.
Qed.

Lemma Get_set_other (k k' : string) (v : value) (w : World) :
  k' <> k -> Get k' (with_data (obj_set k v (data (this w))) w) = Get k' w.
Proof.
  intros N. rewrite Get_with_data. unfold Get.
  rewrite obj_has_set, obj_get_set_other by assumption.
  now rewrite (proj2 (String.eqb_neq k k')) by congruence.
Qed.

Lemma Get_delete_other (key k : string) (w : World) :
  k <> key -> Get k (with_data (obj_delete key (data (this w))) w) = Get k w.
Proof.
  intros N. rewrite Get_with_data, obj_has_delete.
  assert (String.eqb key k = false) as -> by (apply String.eqb_neq; congruence).
  simpl. unfold Get. now rewrite obj_get_delete_other.
Qed.

Lemma Get_filter_unprefixed (pre k : string) (w : World) :
  String.prefix pre k = false ->
  Get k (with_data
           (List.filter (fun p => negb (String.prefix pre (fst p)))
              (data (this w))) w)
  = Get k w.
Proof.
  intros P. rewrite Get_with_data.
  rewrite (obj_has_filter_keys (fun x => negb (String.prefix pre x))), P.
  unfold Get. cbn [negb andb].
  destruct (obj_has k (data (this w))); [|reflexivity].
  rewrite (obj_get_filter_keys (fun x => negb (String.prefix pre x)));
    [reflexivity | now rewrite P].
Qed.

(** A number read at a key is overwritten by an assignment to the key. *)
Lemma Get_Put_number (k : string) (v : value) (w : World) :
  typeof_reading (Get k w) = "number" -> Get k (Put k v w) = Stored v.
Proof. intros T. rewrite (Put_number _ _ _ T). apply Get_set_same. Qed.

(** Refusing the writes commutes with every change of memory. *)
Lemma Get_refuse_writes (k : string) (w : World) :
  Get k (refuse_writes w) = Get k w.
Proof. reflexivity. Qed.

Lemma Put_refuse_writes (k : string) (v : value) (w : World) :
  Put k v (refuse_writes w) = refuse_writes (Put k v w).
Proof.
  unfold Put. simpl. destruct (obj_has k (data (this w))); [reflexivity|].
  change (live (refuse_writes w)) with (live w).
  now destruct (reaches_setter _ _ _).
Qed.

Lemma Replace_refuse_writes (k : string) (v : value) (w : World) :
  Replace k v (refuse_writes w) = refuse_writes (Replace k v w).
Proof.
  unfold Replace. simpl. destruct (obj_has k (data (this w))); [reflexivity|].
  destruct (data_prototype (this w)) as [| |pitems|pprops]; try reflexivity.
  - now destruct (array_index k).
  - now destruct (obj_has k pprops).
Qed.

Lemma pushed_refuse_writes (k : string) (v : value) (w : World) :
  pushed k v (refuse_writes w) = refuse_writes (pushed k v w).
Proof.
  unfold pushed. rewrite Get_refuse_writes.
  destruct (isArray_reading (Get k w)).
  - now rewrite Get_refuse_writes, Replace_refuse_writes.
  - now rewrite Put_refuse_writes, Get_refuse_writes, Replace_refuse_writes.
Qed.

Lemma delete_member_refuse_writes (k : string) (w : World) :
  delete_member k (refuse_writes w) = refuse_writes (delete_member k w).
Proof.
  unfold delete_member. change (live (refuse_writes w)) with (live w).
  now destruct (live w k).
Qed.

Lemma live_delete_member (k : string) (w : World) :
  live (delete_member k w) k = false.
Proof.
  unfold delete_member. destruct (live w k) eqn:L; [|exact L].
  unfold live. simpl. rewrite bool_decide_eq_true_2 by set_solver.
  now rewrite andb_false_r.
Qed.

(** *** The persistence step *)

Section Engine.

Variable Number_toString : float -> string.
Variable same_reference : nat -> bool.

Local Abbreviation stringify := (JSON_stringify Number_toString).
Local Abbreviation save := (Database.save Number_toString).
Local Abbreviation set := (Database.set Number_toString).
Local Abbreviation push := (Database.push Number_toString).
Local Abbreviation remove := (Database.remove Number_toString).
Local Abbreviation delete := (Database.delete Number_toString same_reference).
Local Abbreviation deleteKey := (Database.deleteKey Number_toString).
Local Abbreviation deleteEach := (Database.deleteEach Number_toString).
Local Abbreviation clear := (Database.clear Number_toString).
Local Abbreviation destroy := (Database.destroy Number_toString).
Local Abbreviation add := (Database.add Number_toString).
Local Abbreviation subtract := (Database.subtract Number_toString).
Local Abbreviation multiply := (Database.multiply Number_toString).
Local Abbreviation divide := (Database.divide Number_toString).
Local Abbreviation call := (State.call Number_toString same_reference).
Local Abbreviation perform := (State.perform Number_toString same_reference).
Local Abbreviation remembered := (State.remembered same_reference).
Local Abbreviation synced := (State.synced Number_toString).
Local Abbreviation written := (State.written Number_toString).

Lemma save_eq (w : World) :
  save w =
  if bool_decide (filePath (this w) ∈ unwritable (disk w))
  then (Abrupt (Thrown FILE_NOT_FOUND), w)
  else (Normal tt, written w).
Proof.
  unfold Database.save, try_catch, mbind, M_bind, this_filePath, this_data,
    fs_writeFile, writeFile, written.
  now destruct (bool_decide (filePath (this w) ∈ unwritable (disk w))).
Qed.

Lemma save_Normal (w w' : World) :
  save w = (Normal tt, w') -> w' = written w.
Proof.
  rewrite save_eq. case_bool_decide; congruence.
Qed.

Lemma save_Normal_writable (w w' : World) :
  save w = (Normal tt, w') -> filePath (this w) ∉ unwritable (disk w).
Proof.
  rewrite save_eq. case_bool_decide; [discriminate | auto].
Qed.

Lemma synced_written (w : World) : synced (written w).
Proof. unfold synced, written. simpl. apply lookup_insert_eq. Qed.

Lemma save_synced (w w' : World) :
  save w = (Normal tt, w') -> synced w'.
Proof. intros H. apply save_Normal in H. subst w'. apply synced_written. Qed.

Lemma save_refused (w : World) :
  save (refuse_writes w) = (Abrupt (Thrown FILE_NOT_FOUND), refuse_writes w).
Proof.
  rewrite save_eq. rewrite bool_decide_eq_true_2; [reflexivity|].
  simpl. set_solver.
Qed.

Lemma save_this (w : World) : this (snd (save w)) = this w.
Proof. rewrite save_eq. now case_bool_decide. Qed.

Lemma save_deleted (w : World) : deleted (snd (save w)) = deleted w.
Proof. rewrite save_eq. now case_bool_decide. Qed.

(** The data is neither read nor changed by what [save] does to the
    disk. *)
Lemma Get_save (k : string) (w : World) : Get k (snd (save w)) = Get k w.
Proof. rewrite save_eq. now case_bool_decide. Qed.

Lemma save_not_OBJECT_NOT_FOUND (w : World) :
  fst (save w) <> Abrupt (Thrown OBJECT_NOT_FOUND).
Proof. rewrite save_eq. case_bool_decide; discriminate. Qed.

(** *** Each mutating method as a guard followed by [save] *)

Lemma set_eq (key value : value) (w : World) :
  set key value w =
  if bad_key_or_value key value then (Abrupt (Thrown INVALID_VALUE), w)
  else save (Put (string_of key) value w).
Proof.
  unfold Database.set, bad_key_or_value.
  now destruct (negb (typeof key =? "string")
                || strict_equal value VNull || strict_equal value VUndefined).
Qed.

Lemma push_eq (key value : value) (w : World) :
  push key value w =
  if bad_key_or_value key value then (Abrupt (Thrown INVALID_VALUE), w)
  else save (pushed (string_of key) value w).
Proof.
  unfold Database.push, bad_key_or_value, pushed.
  destruct (negb (typeof key =? "string")
            || strict_equal value VNull || strict_equal value VUndefined);
    [reflexivity|].
  unfold mbind, M_bind, get at 1. cbn [fst snd].
  destruct (isArray_reading (Get (string_of key) w)) eqn:A; cbn [negb].
  - unfold mret, M_ret, get. rewrite (Get_isArray _ _ A). reflexivity.
  - unfold put, get. rewrite Get_Put_array. reflexivity.
Qed.

Lemma remove_eq (key : value) (w : World) :
  remove key w =
  if negb (typeof key =? "string") then (Abrupt (Thrown INVALID_VALUE), w)
  else save (with_data (obj_delete (string_of key) (data (this w))) w).
Proof.
  unfold Database.remove. now destruct (negb (typeof key =? "string")).
Qed.

Lemma delete_eq (key value : value) (w : World) :
  delete key value w =
  if bad_key_or_value key value then (Abrupt (Thrown INVALID_VALUE), w)
  else if isArray_reading (Get (string_of key) w)
  then save (Put (string_of key)
               (VArray (arr_without same_reference value
                          (items_of_reading (Get (string_of key) w)))) w)
  else (Normal tt, w).
Proof.
  unfold Database.delete, bad_key_or_value.
  destruct (negb (typeof key =? "string")
            || strict_equal value VNull || strict_equal value VUndefined);
    [reflexivity|].
  unfold mbind, M_bind, get at 1. cbn [fst snd].
  now destruct (isArray_reading (Get (string_of key) w)).
Qed.

Lemma deleteKey_eq (objectKey key : value) (w : World) :
  deleteKey objectKey key w =
  if negb (typeof objectKey =? "string") || negb (typeof key =? "string")
  then (Abrupt (Thrown INVALID_VALUE), w)
  else
    let target := Get (string_of objectKey) w in
    if ToBoolean_reading target && (typeof_reading target =? "object")
    then match target with
         | Stored v =>
             match prop_delete (string_of key) v with
             | Some v' => save (Replace (string_of objectKey) v' w)
             | None => (Abrupt ThrownTypeError, w)
             end
         | TheObjectPrototype => save (delete_member (string_of key) w)
         | _ => save w
         end
    else (Abrupt (Thrown OBJECT_NOT_FOUND), w).
Proof.
  unfold Database.deleteKey.
  destruct (negb (typeof objectKey =? "string") || negb (typeof key =? "string"));
    [reflexivity|].
  unfold mbind, M_bind, get at 1. cbn [fst snd]. cbn zeta.
  destruct (ToBoolean_reading _ && _); [|reflexivity].
  destruct (Get (string_of objectKey) w) as [v| | |]; try reflexivity.
  now destruct (prop_delete _ _).
Qed.

Lemma deleteEach_eq (key : value) (w : World) :
  deleteEach key w =
  if negb (typeof key =? "string") then (Abrupt (Thrown INVALID_VALUE), w)
  else save (with_data
               (List.filter (fun p => negb (String.prefix (string_of key) (fst p)))
                  (data (this w))) w).
Proof.
  unfold Database.deleteEach.
  destruct (negb (typeof key =? "string")); [reflexivity|].
  unfold mbind at 1, M_bind at 1, the_world at 1.
  unfold mbind at 1, M_bind at 1.
  rewrite for_in_deleteEach. unfold enumerable_keys.
  now rewrite fold_drop_keys.
Qed.

Lemma clear_eq (w : World) : clear w = save (emptied w).
Proof. reflexivity. Qed.

Lemma destroy_eq (w : World) :
  destroy w =
  match unlink (filePath (this w)) (disk w) with
  | Some _ => save (emptied (unlinked w))
  | None => (Abrupt (Thrown FILE_NOT_FOUND), w)
  end.
Proof.
  unfold Database.destroy, try_catch.
  unfold mbind at 1, M_bind at 1, this_filePath at 1.
  unfold mbind at 1, M_bind at 1, fs_unlink.
  unfold unlink.
  destruct (bool_decide (filePath (this w) ∈ undeletable (disk w))); [reflexivity|].
  destruct (files (disk w) !! filePath (this w)); [|reflexivity].
  change (Database.clear Number_toString ?x) with (save (emptied x)).
  fold (unlinked w).
  rewrite save_eq. now case_bool_decide.
Qed.

Lemma arithmetic_eq (op : float -> float -> float) (key value : value) (w : World) :
  arithmetic Number_toString op key value w =
  if negb (typeof key =? "string") || negb (typeof value =? "number")
  then (Abrupt (Thrown INVALID_VALUE), w)
  else if typeof_reading (Get (string_of key) w) =? "number"
  then save (Put (string_of key)
               (VNumber (op (number_of_reading (Get (string_of key) w))
                            (number_of value))) w)
  else (Abrupt (Thrown INVALID_VALUE), w).
Proof.
  unfold arithmetic.
  destruct (negb (typeof key =? "string") || negb (typeof value =? "number"));
    [reflexivity|].
  unfold mbind, M_bind, get at 1. cbn [fst snd].
  now destruct (typeof_reading (Get (string_of key) w) =? "number").
Qed.

Lemma divide_eq (key value : value) (w : World) :
  divide key value w =
  if negb (typeof key =? "string") || negb (typeof value =? "number")
  then (Abrupt (Thrown INVALID_VALUE), w)
  else if typeof_reading (Get (string_of key) w) =? "number"
  then if strict_equal value (VNumber 0)
       then (Abrupt (errors "DIVISION_BY_ZERO"), w)
       else save (Put (string_of key)
                    (VNumber (PrimFloat.div
                                (number_of_reading (Get (string_of key) w))
                                (number_of value))) w)
  else (Abrupt (Thrown INVALID_VALUE), w).
Proof.
  unfold Database.divide.
  destruct (negb (typeof key =? "string") || negb (typeof value =? "number"));
    [reflexivity|].
  unfold mbind, M_bind, get at 1. cbn [fst snd].
  destruct (typeof_reading (Get (string_of key) w) =? "number");
    [|reflexivity].
  now destruct (strict_equal value (VNumber 0)).
Qed.

Lemma fetch_eq (key : string) (w : World) :
  fetch (VString key) w = (Normal (Get key w), w).
Proof. reflexivity. Qed.

Lemma has_eq (key : string) (w : World) :
  has (VString key) w =
  match Get "hasOwnProperty" w with
  | BuiltinFunction _ _ => (Normal (obj_has key (data (this w))), w)
  | _ => (Abrupt ThrownTypeError, w)
  end.
Proof.
  unfold Database.has. simpl. unfold mbind, M_bind, get. cbn [fst snd].
  now destruct (Get "hasOwnProperty" w).
Qed.

Lemma objectFetch_eq (key sub : string) (w : World) :
  objectFetch (VString key) (VString sub) w =
  let object := Get key w in
  if negb (ToBoolean_reading object) || negb (typeof_reading object =? "object")
  then (Abrupt (Thrown OBJECT_NOT_FOUND), w)
  else (Normal (property (live w) sub object), w).
Proof.
  unfold Database.objectFetch. simpl. unfold mbind, M_bind, get. cbn [fst snd].
  cbn zeta. now destruct (negb (ToBoolean_reading _) || _).
Qed.

Lemma arrayFetch_eq (key : string) (n : float) (w : World) :
  Number_isInteger (VNumber n) = true ->
  arrayFetch (VString key) (VNumber n) w =
  if isArray_reading (Get key w)
  then (Normal (arr_get_number n (items_of_reading (Get key w))), w)
  else (Abrupt (Thrown ARRAY_NOT_FOUND), w).
Proof.
  intros H. unfold Database.arrayFetch. simpl. rewrite H. simpl.
  unfold mbind, M_bind, get. cbn [fst snd].
  now destruct (isArray_reading (Get key w)).
Qed.

(** *** Disk and memory after a mutating method *)

(** C1 (amended): when a public mutating method ([set], [push], [delete],
    [deleteKey], [deleteEach], [remove], [clear], [destroy]) completes
    normally, the document at [this.filePath] is the serialization of
    [this.data], with one exception: [delete] on an entry that is not an
    array returns without saving, and then memory and disk are exactly as
    they were before the call. *)
Theorem mutation_success_synced (m : mutation) (w w' : World) :
  call m w = (Normal tt, w') ->
  if skips_save m w then w' = w else synced w'.
Proof.
  destruct m as [k v|k v|k v|ok k|k|k| |]; simpl.
  - rewrite set_eq. destruct (bad_key_or_value k v); [discriminate|].
    apply save_synced.
  - rewrite push_eq. destruct (bad_key_or_value k v); [discriminate|].
    apply save_synced.
  - rewrite delete_eq. destruct (bad_key_or_value k v); [discriminate|].
    destruct (isArray_reading (Get (string_of k) w)); simpl;
      [apply save_synced | congruence].
  - rewrite deleteKey_eq.
    destruct (negb (typeof ok =? "string") || negb (typeof k =? "string"));
      [discriminate|].
    cbn zeta. destruct (ToBoolean_reading _ && _); [|discriminate].
    destruct (Get (string_of ok) w) as [v| | |]; try apply save_synced.
    destruct (prop_delete _ _); [|discriminate]. apply save_synced.
  - rewrite deleteEach_eq. destruct (negb (typeof k =? "string")); [discriminate|].
    apply save_synced.
  - rewrite remove_eq. destruct (negb (typeof k =? "string")); [discriminate|].
    apply save_synced.
  - rewrite clear_eq. apply save_synced.
  - rewrite destroy_eq. destruct (unlink _ _); [|discriminate].
    apply save_synced.
Qed.

(** *** Guards of the arithmetic methods *)

Lemma typeof_reading_not_number (r : reading) :
  typeof_reading r <> "number" -> (typeof_reading r =? "number") = false.
Proof. intros H. now apply String.eqb_neq. Qed.

(** C2 (amended): [divide(key, 0)] never completes normally and changes
    neither memory nor disk.  When what [this.data[key]] reads is not a
    number (a key that is neither stored nor inherited included) it fails
    with [INVALID_VALUE]; when it is a number, the zero-divisor guard throws
    the catalog's [DIVISION_BY_ZERO] member before the division. *)
Theorem divide_by_zero_guard (key : string) (z : float) (w : World) :
  PrimFloat.eqb z 0 = true ->
  divide (VString key) (VNumber z) w =
  if typeof_reading (Get key w) =? "number"
  then (Abrupt (errors "DIVISION_BY_ZERO"), w)
  else (Abrupt (Thrown INVALID_VALUE), w).
Proof.
  intros Hz. rewrite divide_eq. simpl.
  destruct (typeof_reading (Get key w) =? "number"); [|reflexivity].
  now rewrite Hz.
Qed.

(** With the prototype of [{}], a key that is not stored never reads as
    a number nor as an array. *)
Lemma absent_key_reading (key : string) (w : World) :
  obj_has key (data (this w)) = false ->
  data_prototype (this w) = ObjectPrototype ->
  typeof_reading (Get key w) <> "number"
  /\ isArray_reading (Get key w) = false.
Proof.
  intros H P. unfold Get. rewrite H, P. simpl. unfold from_Object_prototype.
  destruct (live w key); [|split; [discriminate | reflexivity]].
  destruct (String.eqb key "__proto__"); split; (discriminate || reflexivity).
Qed.

(** C5 (amended): [add], [subtract], [multiply] and [divide], called with
    a string key and a number, fail with [INVALID_VALUE] when what
    [this.data[key]] reads is not a number; memory and disk are unchanged,
    so the key is not initialised.  With the prototype of [{}] this covers
    every key that is not stored. *)
Theorem arithmetic_requires_number (key : string) (n : float) (w : World) :
  typeof_reading (Get key w) <> "number"
  \/ (obj_has key (data (this w)) = false
      /\ data_prototype (this w) = ObjectPrototype) ->
  add (VString key) (VNumber n) w = (Abrupt (Thrown INVALID_VALUE), w)
  /\ subtract (VString key) (VNumber n) w = (Abrupt (Thrown INVALID_VALUE), w)
  /\ multiply (VString key) (VNumber n) w = (Abrupt (Thrown INVALID_VALUE), w)
  /\ divide (VString key) (VNumber n) w = (Abrupt (Thrown INVALID_VALUE), w).
Proof.
  intros H.
  assert (typeof_reading (Get key w) <> "number") as H'
    by (destruct H as [H|[H P]]; [exact H | now apply absent_key_reading]).
  apply typeof_reading_not_number in H'.
  unfold Database.add, Database.subtract, Database.multiply.
  rewrite !arithmetic_eq, divide_eq. simpl. rewrite H'. auto.
Qed.

(** *** Guards of the object methods *)

(** C3 (amended): for string arguments, [objectFetch(key, subKey)] and
    [deleteKey(objectKey, key)] fail with [OBJECT_NOT_FOUND], leaving memory
    and disk unchanged, when [this.data[key]] reads as [undefined] (a key
    that is neither stored nor inherited), as [null], a boolean, a number or
    a string, or as a function (an inherited method such as ["toString"]).
    An array passes the check like any other object, and so does the
    object that the inherited key ["__proto__"] reads: then [objectFetch]
    returns the property that [subKey] names on what was read, looked up
    through its prototype chain, and [deleteKey] does not fail with
    [OBJECT_NOT_FOUND]. *)
Theorem object_guard (key sub : string) (w : World) :
  match Get key w with
  | Stored (VArray _) | Stored (VObject _)
  | TheObjectPrototype | TheArrayPrototype =>
      objectFetch (VString key) (VString sub) w
      = (Normal (property (live w) sub (Get key w)), w)
      /\ fst (deleteKey (VString key) (VString sub) w)
         <> Abrupt (Thrown OBJECT_NOT_FOUND)
  | _ =>
      objectFetch (VString key) (VString sub) w
      = (Abrupt (Thrown OBJECT_NOT_FOUND), w)
      /\ deleteKey (VString key) (VString sub) w
         = (Abrupt (Thrown OBJECT_NOT_FOUND), w)
  end.
Proof.
  pose proof (deleteKey_eq (VString key) (VString sub) w) as D.
  pose proof (objectFetch_eq key sub w) as F.
  cbn zeta in *. simpl in D.
  destruct (Get key w) as [[| |b|n|s|items|props]|o m| |];
    simpl in *; rewrite ?andb_false_r, ?orb_true_r in *; auto.
  - split; [exact F|]. rewrite D.
    destruct (arr_delete sub items); simpl;
      [apply save_not_OBJECT_NOT_FOUND | discriminate].
  - split; [exact F|]. rewrite D. apply save_not_OBJECT_NOT_FOUND.
  - split; [exact F|]. rewrite D. apply save_not_OBJECT_NOT_FOUND.
  - split; [exact F|]. rewrite D. apply save_not_OBJECT_NOT_FOUND.
Qed.

(** *** Arrays *)

Lemma pushed_own (k : string) (v : value) (w : World) :
  data_prototype (this w) = ObjectPrototype -> k <> "__proto__" ->
  obj_has k (data (this (pushed k v w))) = true.
Proof.
  intros P N. unfold pushed.
  destruct (isArray_reading (Get k w)) eqn:A.
  - assert (obj_has k (data (this w)) = true) as H.
    { destruct (obj_has k (data (this w))) eqn:H; [reflexivity|].
      exfalso. apply Get_isArray in A. unfold Get in A. rewrite H, P in A.
      simpl in A. apply from_Object_prototype_stored in A.
      destruct A as [A|(_ & _ & A)]; discriminate. }
    unfold Replace. rewrite H. simpl. now rewrite obj_has_update.
  - rewrite (Put_ordinary _ _ _ N). unfold Replace. simpl.
    rewrite obj_has_set, String.eqb_refl. simpl.
    now rewrite obj_has_update, obj_has_set, String.eqb_refl.
Qed.


(** C7 (amended): for a string key and an integer index,
    [arrayFetch(key, index)] fails with [ARRAY_NOT_FOUND] when what
    [this.data[key]] reads is not an array, which with the prototype of
    [{}] covers every key that is not stored; on an array it returns the
    element at that zero-based position, and [undefined] when the index is
    out of range.  A key that is not a string or an index that is not an
    integer fails with [INVALID_VALUE].  Memory and disk are unchanged in
    every case. *)
Theorem arrayFetch_spec (key : string) (n : float) (w : World) :
  Number_isInteger (VNumber n) = true ->
  let i := integer_value n in
  (isArray_reading (Get key w) = false ->
   arrayFetch (VString key) (VNumber n) w = (Abrupt (Thrown ARRAY_NOT_FOUND), w))
  /\ (obj_has key (data (this w)) = false ->
      data_prototype (this w) = ObjectPrototype ->
      arrayFetch (VString key) (VNumber n) w = (Abrupt (Thrown ARRAY_NOT_FOUND), w))
  /\ (forall items v,
      Get key w = Stored (VArray items) ->
      (0 <= i)%Z -> items !! Z.to_nat i = Some (Some v) ->
      arrayFetch (VString key) (VNumber n) w = (Normal v, w))
  /\ (forall items,
      Get key w = Stored (VArray items) ->
      (i < 0 \/ Z.of_nat (List.length items) <= i)%Z ->
      arrayFetch (VString key) (VNumber n) w = (Normal VUndefined, w))
  /\ (forall k, typeof k <> "string" ->
      arrayFetch k (VNumber n) w = (Abrupt (Thrown INVALID_VALUE), w))
  /\ (forall index, Number_isInteger index = false ->
      arrayFetch (VString key) index w = (Abrupt (Thrown INVALID_VALUE), w)).
Proof.
  intros Hint i. split; [|split; [|split; [|split; [|split]]]].
  - intros A. now rewrite (arrayFetch_eq _ _ _ Hint), A.
  - intros H P. destruct (absent_key_reading key w H P) as [_ A].
    now rewrite (arrayFetch_eq _ _ _ Hint), A.
  - intros items v G Hi Hv. rewrite (arrayFetch_eq _ _ _ Hint), G. simpl.
    unfold arr_get_number. fold i.
    assert (Z.to_nat i < List.length items)%nat as Hlt
      by (apply lookup_lt_is_Some; eauto).
    replace ((0 <=? i)%Z && (i <? Z.of_nat (List.length items))%Z) with true
      by (symmetry; apply andb_true_iff; split;
          [apply Z.leb_le | apply Z.ltb_lt]; lia).
    unfold arr_at. now rewrite Hv.
  - intros items G Hi. rewrite (arrayFetch_eq _ _ _ Hint), G. simpl.
    unfold arr_get_number. fold i.
    replace ((0 <=? i)%Z && (i <? Z.of_nat (List.length items))%Z) with false;
      [reflexivity|].
    symmetry. apply andb_false_iff.
    destruct Hi; [left; apply Z.leb_gt | right; apply Z.ltb_ge]; lia.
  - intros k Hk. unfold Database.arrayFetch.
    apply String.eqb_neq in Hk. now rewrite Hk.
  - intros index Hidx. unfold Database.arrayFetch. simpl. now rewrite Hidx.
Qed.

(** *** Reads *)

Lemma inherited_nothing (lv : string -> bool) (k : string) :
  in_names k Object_prototype_names = false ->
  (forall k', lv k' = true -> in_names k' Object_prototype_names = true) ->
  inherited lv ObjectPrototype k = Stored VUndefined.
Proof.
  intros N L. unfold inherited, from_Object_prototype.
  destruct (lv k) eqn:E; [|reflexivity].
  apply L in E. congruence.
Qed.

Lemma live_is_member (w : World) (k : string) :
  live w k = true -> in_names k Object_prototype_names = true.
Proof. unfold live. now intros H%andb_true_iff. Qed.

(** C9 (amended): [fetch], [has], [objectFetch], [arrayFetch],
    [getAllKeys] and [getAllValues] leave memory and disk as they are,
    whatever their arguments and whether they return or throw.  For a
    string key, [fetch(key)] returns what [this.data[key]] reads: the
    stored value when the key exists; when it does not, what the prototype
    of [this.data] gives for that name, which with the prototype of [{}] is
    [undefined] for every key that is not the name of a member of
    [Object.prototype]. *)
Theorem reads_leave_state (w : World) :
  (forall key, snd (fetch key w) = w)
  /\ (forall key, snd (has key w) = w)
  /\ (forall key subKey, snd (objectFetch key subKey w) = w)
  /\ (forall key index, snd (arrayFetch key index w) = w)
  /\ snd (getAllKeys w) = w
  /\ snd (getAllValues w) = w
  /\ (forall key : string,
      obj_has key (data (this w)) = true ->
      fetch (VString key) w = (Normal (Stored (obj_get key (data (this w)))), w))
  /\ (forall key : string,
      obj_has key (data (this w)) = false ->
      fetch (VString key) w
      = (Normal (inherited (live w) (data_prototype (this w)) key), w))
  /\ (forall key : string,
      obj_has key (data (this w)) = false ->
      data_prototype (this w) = ObjectPrototype ->
      in_names key Object_prototype_names = false ->
      fetch (VString key) w = (Normal (Stored VUndefined), w)).
Proof.
  split; [|split; [|split; [|split; [|split; [|split; [|split; [|split]]]]]]].
  - intros key. unfold Database.fetch.
    now destruct (negb (typeof key =? "string")).
  - intros key. unfold Database.has.
    destruct (negb (typeof key =? "string")); [reflexivity|].
    unfold mbind, M_bind, get. cbn [fst snd].
    now destruct (Get "hasOwnProperty" w).
  - intros key subKey. unfold Database.objectFetch.
    destruct (negb (typeof key =? "string") || negb (typeof subKey =? "string"));
      [reflexivity|].
    unfold mbind, M_bind, get. cbn [fst snd].
    now destruct (negb (ToBoolean_reading _) || _).
  - intros key index. unfold Database.arrayFetch.
    destruct (negb (typeof key =? "string") || negb (Number_isInteger index));
      [reflexivity|].
    unfold mbind, M_bind, get. cbn [fst snd].
    now destruct (negb (isArray_reading _)).
  - reflexivity.
  - reflexivity.
  - intros key H. now rewrite fetch_eq, (Get_own _ _ H).
  - intros key H. rewrite fetch_eq. unfold Get. now rewrite H.
  - intros key H P N. rewrite fetch_eq. unfold Get. rewrite H, P.
    rewrite inherited_nothing; auto. apply live_is_member.
Qed.

(** *** [deleteEach] with the empty prefix *)

Lemma stringify_empty : stringify [] = "{}".
Proof. reflexivity. Qed.


(** *** [destroy] *)

(** C4, what the code does: when [destroy()] completes normally,
    [getAllKeys()] is empty and a later [set] with a string key and a
    storable value completes, but the backing file exists: [clear] has
    written the empty document to it after the unlink.  When the unlink
    fails, [destroy] fails with [FILE_NOT_FOUND]. *)
Theorem destroy_recreates_document (w w' : World) :
  destroy w = (Normal tt, w') ->
  getAllKeys w' = (Normal [], w')
  /\ files (disk w') !! filePath (this w') = Some "{}"
  /\ (forall (key : string) (value : value),
      value <> VNull -> value <> VUndefined ->
      fst (set (VString key) value w') = Normal tt).
Proof.
  rewrite destroy_eq. destruct (unlink _ _); [|discriminate].
  intros H. pose proof (save_Normal_writable _ _ H) as Hw.
  apply save_Normal in H. subst w'.
  split; [reflexivity|]. split; [apply lookup_insert_eq|].
  intros key value Hn Hu.
  rewrite set_eq, (not_null_undefined _ _ Hn Hu), save_eq.
  change (string_of (VString key)) with key.
  destruct (Put_frame key value (written (emptied (unlinked w)))) as (Fp & Fd & _).
  rewrite Fp, Fd. now rewrite bool_decide_eq_false_2.
Qed.

Lemma destroy_unlink_fails (w : World) :
  unlink (filePath (this w)) (disk w) = None ->
  destroy w = (Abrupt (Thrown FILE_NOT_FOUND), w).
Proof. intros H. now rewrite destroy_eq, H. Qed.

(** *** A failing [save] *)

Lemma remembered_refuse_writes (u : update) (w w' : World) :
  remembered u w w' -> remembered u w (refuse_writes w').
Proof. destruct u as [[| | | | | | |]| | | |]; intros H; exact H. Qed.

Lemma save_refused_after (u : update) (w w0 w1 : World) :
  save w0 = (Normal tt, w1) ->
  remembered u w w0 ->
  exists w2,
    save (refuse_writes w0) = (Abrupt (Thrown FILE_NOT_FOUND), w2)
    /\ remembered u w w2
    /\ this w2 = this w1
    /\ files (disk w2) = files (disk w0)
    /\ files (disk w1)
       = <[filePath (this w1) := stringify (data (this w1))]> (files (disk w2)).
Proof.
  intros H R. apply save_Normal in H. subst w1.
  exists (refuse_writes w0). split; [apply save_refused|].
  split; [now apply remembered_refuse_writes|]. now split.
Qed.

Lemma arithmetic_refused_after (op : float -> float -> float) (u : update)
  (key value : value) (w w1 : World) :
  arithmetic Number_toString op key value w = (Normal tt, w1) ->
  (forall w',
     (Get (string_of key) w'
      = Stored (VNumber (op (number_of_reading (Get (string_of key) w))
                            (number_of value)))
      /\ forall k, k <> string_of key -> Get k w' = Get k w) ->
     remembered u w w') ->
  exists w2,
    arithmetic Number_toString op key value (refuse_writes w)
    = (Abrupt (Thrown FILE_NOT_FOUND), w2)
    /\ remembered u w w2
    /\ this w2 = this w1
    /\ files (disk w2) = files (disk w)
    /\ files (disk w1)
       = <[filePath (this w1) := stringify (data (this w1))]> (files (disk w2)).
Proof.
  rewrite !arithmetic_eq.
  destruct (negb (typeof key =? "string") || negb (typeof value =? "number"));
    [discriminate|].
  rewrite Get_refuse_writes.
  destruct (typeof_reading (Get (string_of key) w) =? "number") eqn:T;
    [|discriminate].
  apply String.eqb_eq in T. intros H R. rewrite Put_refuse_writes.
  rewrite (Put_number _ _ _ T) in H |- *.
  apply (save_refused_after u w _ _ H). apply R.
  split; [apply Get_set_same | intros k N; now apply Get_set_other].
Qed.

(** C8: take a call of a method that changes the data ([set], [push],
    [delete], [deleteKey], [deleteEach], [remove], [clear], [destroy],
    [add], [subtract], [multiply], [divide]) that reaches its [save] and
    completes, and run it where the write is refused instead.  The call
    then fails with [FILE_NOT_FOUND], raised to the caller.  Memory holds
    the mutation: what the call has stored, removed or computed is there,
    and [this.data] is what it is after the call that completed.  The disk
    is what the [save] met, the document not updated. *)
Theorem save_failure_keeps_mutation (u : update) (w w1 : World) :
  perform u w = (Normal tt, w1) ->
  returns_unsaved u w = false ->
  exists w2,
    perform u (refuse_writes w) = (Abrupt (Thrown FILE_NOT_FOUND), w2)
    /\ remembered u w w2
    /\ this w2 = this w1
    /\ files (disk w2) = files (disk_at_save u w)
    /\ files (disk w1)
       = <[filePath (this w1) := stringify (data (this w1))]> (files (disk w2)).
Proof.
  destruct u as [[k v|k v|k v|ok k|k|k| |]|k v|k v|k v|k v];
    cbn [perform State.perform call State.call returns_unsaved skips_save
         disk_at_save].
  - rewrite !set_eq. destruct (bad_key_or_value k v); [discriminate|].
    intros H _. rewrite Put_refuse_writes.
    destruct (Put_frame (string_of k) v w) as (_ & Fd & _). rewrite <- Fd.
    apply (save_refused_after _ _ _ _ H). intros N.
    split; [now apply Get_Put_same | intros k' N'; now apply Get_Put_other].
  - rewrite !push_eq. destruct (bad_key_or_value k v); [discriminate|].
    intros H _. rewrite pushed_refuse_writes.
    destruct (pushed_frame (string_of k) v w) as (_ & Fd & _). rewrite <- Fd.
    apply (save_refused_after _ _ _ _ H). apply Get_pushed.
  - rewrite !delete_eq. destruct (bad_key_or_value k v); [discriminate|].
    rewrite Get_refuse_writes.
    destruct (isArray_reading (Get (string_of k) w)); [|discriminate].
    intros H _. rewrite Put_refuse_writes.
    match type of H with save (Put ?k ?x w) = _ =>
      destruct (Put_frame k x w) as (_ & Fd & _) end.
    rewrite <- Fd.
    apply (save_refused_after _ _ _ _ H). apply Get_Put_array.
  - rewrite !deleteKey_eq.
    destruct (negb (typeof ok =? "string") || negb (typeof k =? "string"));
      [discriminate|].
    cbn zeta. rewrite Get_refuse_writes.
    destruct (ToBoolean_reading (Get (string_of ok) w)
              && (typeof_reading (Get (string_of ok) w) =? "object")) eqn:G;
      [|discriminate].
    apply andb_true_iff in G. destruct G as [B T]. apply String.eqb_eq in T.
    destruct (Get (string_of ok) w) as [x|o m| |] eqn:E.
    + destruct (prop_delete (string_of k) x) as [x'|] eqn:D; [|discriminate].
      intros H _. rewrite Replace_refuse_writes.
      destruct (Replace_frame (string_of ok) x' w) as (_ & Fd & _).
      rewrite <- Fd.
      apply (save_refused_after _ _ _ _ H). cbn [State.remembered]. rewrite E.
      exists x'. split; [exact D|].
      apply (Get_Replace_deleted (string_of ok) (string_of k) x x' w E T);
        [|exact D].
      intros ->. discriminate.
    + discriminate.
    + intros H _. rewrite delete_member_refuse_writes.
      destruct (delete_member_frame (string_of k) w) as (_ & Fd).
      rewrite <- Fd.
      apply (save_refused_after _ _ _ _ H). cbn [State.remembered]. rewrite E.
      apply live_delete_member.
    + intros H _.
      apply (save_refused_after _ _ _ _ H). cbn [State.remembered]. now rewrite E.
  - rewrite !deleteEach_eq. destruct (negb (typeof k =? "string")); [discriminate|].
    intros H _.
    apply (save_refused_after _ _ _ _ H). split.
    + intros k' P. cbn.
      rewrite (obj_has_filter_keys (fun x => negb (String.prefix (string_of k) x))).
      now rewrite P.
    + intros k' P. now apply Get_filter_unprefixed.
  - rewrite !remove_eq. destruct (negb (typeof k =? "string")); [discriminate|].
    intros H _.
    apply (save_refused_after _ _ _ _ H). split.
    + cbn. now rewrite obj_has_delete, String.eqb_refl.
    + intros k' N. now apply Get_delete_other.
  - rewrite !clear_eq. intros H _.
    apply (save_refused_after _ _ _ _ H). now split.
  - rewrite !destroy_eq. unfold unlink. cbn [refuse_writes disk this
      undeletable files].
    destruct (bool_decide (filePath (this w) ∈ undeletable (disk w)));
      [discriminate|].
    destruct (files (disk w) !! filePath (this w)); [|discriminate].
    intros H _.
    apply (save_refused_after (Mutation CallDestroy) w _ _ H). now split.
  - intros H _. apply (arithmetic_refused_after _ _ _ _ _ _ H). auto.
  - intros H _. apply (arithmetic_refused_after _ _ _ _ _ _ H). auto.
  - intros H _. apply (arithmetic_refused_after _ _ _ _ _ _ H). auto.
  - rewrite !divide_eq.
    destruct (negb (typeof k =? "string") || negb (typeof v =? "number"));
      [discriminate|].
    rewrite Get_refuse_writes.
    destruct (typeof_reading (Get (string_of k) w) =? "number") eqn:T;
      [|discriminate].
    apply String.eqb_eq in T.
    destruct (strict_equal v (VNumber 0)); [discriminate|].
    intros H _. rewrite Put_refuse_writes.
    rewrite (Put_number _ _ _ T) in H |- *.
    apply (save_refused_after _ _ _ _ H).
    split; [apply Get_set_same | intros k' N; now apply Get_set_other].
Qed.

(** ** Further properties of the methods *)

(** *** Memory after the methods that save *)

Lemma set_world (key : string) (value : value) (w : World) :
  value <> VNull -> value <> VUndefined ->
  set (VString key) value w = save (Put key value w).
Proof. intros Hn Hu. now rewrite set_eq, (not_null_undefined _ _ Hn Hu). Qed.

Lemma set_data (key : string) (value : value) (w : World) :
  value <> VNull -> value <> VUndefined -> key <> "__proto__" ->
  data (this (snd (set (VString key) value w)))
  = obj_set key value (data (this w)).
Proof.
  intros Hn Hu N.
  now rewrite (set_world _ _ _ Hn Hu), save_this, (Put_ordinary _ _ _ N).
Qed.

Lemma remove_data (key : string) (w : World) :
  data (this (snd (remove (VString key) w))) = obj_delete key (data (this w)).
Proof. rewrite remove_eq. simpl. now rewrite save_this. Qed.

(** X1: after [set(key, value)] with a storable value and a key other than
    ["__proto__"], [fetch(key)] returns [value] and every other key fetches
    what it did before; this holds whether or not the save went through. *)
Theorem set_then_fetch (key : string) (value : value) (w : World) :
  value <> VNull -> value <> VUndefined -> key <> "__proto__" ->
  let w' := snd (set (VString key) value w) in
  fetch (VString key) w' = (Normal (Stored value), w')
  /\ (forall k, k <> key ->
      fst (fetch (VString k) w') = fst (fetch (VString k) w)).
Proof.
  intros Hn Hu N w'. subst w'. rewrite (set_world _ _ _ Hn Hu). split.
  - now rewrite fetch_eq, Get_save, Get_Put_same.
  - intros k K. rewrite !fetch_eq. cbn [fst].
    now rewrite Get_save, Get_Put_other.
Qed.

(** X2: the last write wins.  For a key other than ["__proto__"], a [set]
    on a key that follows another [set] on the same key gives the same
    completion, memory and disk as the second [set] alone, the key keeping
    the position the first write gave it. *)
Theorem set_overwrites_set (key : string) (v1 v2 : value) (w : World) :
  v1 <> VNull -> v1 <> VUndefined -> v2 <> VNull -> v2 <> VUndefined ->
  key <> "__proto__" ->
  set (VString key) v2 (snd (set (VString key) v1 w)) = set (VString key) v2 w.
Proof.
  intros H1 H1' H2 H2' N.
  rewrite !set_eq, (not_null_undefined _ _ H1 H1'), (not_null_undefined _ _ H2 H2').
  cbn [string_of]. rewrite !(Put_ordinary _ _ _ N).
  rewrite save_this. cbn [with_data this data].
  rewrite obj_set_set.
  rewrite (save_eq (with_data (obj_set key v1 (data (this w))) w)).
  cbn [with_data this data filePath disk].
  case_bool_decide as Hw; cbn [snd]; rewrite !save_eq;
    cbn [with_data this data filePath disk State.written unwritable files
         undeletable deleted data_prototype];
    rewrite ?bool_decide_eq_true_2, ?bool_decide_eq_false_2 by assumption.
  - reflexivity.
  - unfold State.written, with_data. cbn. now rewrite insert_insert_eq.
Qed.

(** X3: after [remove(key)] the key is no longer stored: it is not among
    [getAllKeys()], and [fetch(key)] returns what the prototype of
    [this.data] gives for that name, which with the prototype of [{}] is
    [undefined] for every key that is not the name of a member of
    [Object.prototype].  Every other key fetches what it did before, and
    removing a key that is not stored leaves the data as it is. *)
Theorem remove_then_absent (key : string) (w : World) :
  let w' := snd (remove (VString key) w) in
  obj_has key (data (this w')) = false
  /\ ~ In key (Object_keys (data (this w')))
  /\ fetch (VString key) w'
     = (Normal (inherited (live w) (data_prototype (this w)) key), w')
  /\ (data_prototype (this w) = ObjectPrototype ->
      in_names key Object_prototype_names = false ->
      fetch (VString key) w' = (Normal (Stored VUndefined), w'))
  /\ (forall k, k <> key ->
      fst (fetch (VString k) w') = fst (fetch (VString k) w))
  /\ (obj_has key (data (this w)) = false -> data (this w') = data (this w)).
Proof.
  intros w'. pose proof (remove_data key w) as D. fold w' in D.
  assert (obj_has key (data (this w')) = false) as A
    by (now rewrite D, obj_has_delete, String.eqb_refl).
  assert (fetch (VString key) w'
          = (Normal (inherited (live w) (data_prototype (this w)) key), w')) as F.
  { rewrite fetch_eq. f_equal. f_equal. subst w'. rewrite remove_eq.
    cbn [typeof String.eqb negb string_of]. simpl. rewrite Get_save.
    rewrite Get_with_data, obj_has_delete, String.eqb_refl. reflexivity. }
  split; [exact A|]. split; [|split; [exact F|split; [|split]]].
  - intros I. apply obj_has_In in I. congruence.
  - intros P M. rewrite F, P.
    rewrite inherited_nothing; auto. apply live_is_member.
  - intros k N. rewrite !fetch_eq. cbn [fst]. f_equal. subst w'.
    rewrite remove_eq. simpl. rewrite Get_save. now apply Get_delete_other.
  - intros H. now rewrite D, obj_delete_absent.
Qed.

Lemma typeof_reading_function (r : reading) :
  typeof_reading r = "function" -> exists o m, r = BuiltinFunction o m.
Proof.
  destruct r as [v|o m| |]; try discriminate; [|eauto].
  destruct v; discriminate.
Qed.

(** X4: [has] follows [set] and [remove].  In a store where
    [this.data.hasOwnProperty] is the inherited method, and for a key other
    than ["hasOwnProperty"] and ["__proto__"], [has(key)] is [true] after
    [set(key, value)] and [false] after [remove(key)]. *)
Theorem has_after_set_and_remove (key : string) (value : value) (w : World) :
  value <> VNull -> value <> VUndefined ->
  typeof_reading (Get "hasOwnProperty" w) = "function" ->
  key <> "hasOwnProperty" -> key <> "__proto__" ->
  fst (has (VString key) (snd (set (VString key) value w))) = Normal true
  /\ fst (has (VString key) (snd (remove (VString key) w))) = Normal false.
Proof.
  intros Hn Hu Hh Hk Hp.
  apply typeof_reading_function in Hh. destruct Hh as (o & m & Hh).
  split; rewrite has_eq.
  - rewrite (set_world _ _ _ Hn Hu), Get_save, save_this.
    rewrite Get_Put_other, Hh by congruence.
    rewrite (Put_ordinary _ _ _ Hp). cbn [with_data this data fst].
    now rewrite obj_has_set, String.eqb_refl.
  - rewrite remove_eq. simpl. rewrite Get_save, save_this.
    rewrite Get_delete_other, Hh by congruence. cbn [with_data this data fst].
    now rewrite obj_has_delete, String.eqb_refl.
Qed.

(** X5: a stored key named ["hasOwnProperty"] breaks [has].  After
    [set("hasOwnProperty", value)], [this.data.hasOwnProperty] is the stored
    value, not the inherited method, and [has(key)] throws a [TypeError] for
    every key, leaving memory and disk as they are. *)
Theorem has_shadowed_by_stored_key (key : string) (value : value) (w : World) :
  value <> VNull -> value <> VUndefined ->
  let w' := snd (set (VString "hasOwnProperty") value w) in
  has (VString key) w' = (Abrupt ThrownTypeError, w').
Proof.
  intros Hn Hu w'. rewrite has_eq. subst w'.
  rewrite (set_world _ _ _ Hn Hu), Get_save.
  now rewrite Get_Put_same by discriminate.
Qed.

(** X6: [clear] is idempotent: a second [clear] gives the completion,
    memory and disk of the first. *)
Theorem clear_idempotent (w : World) :
  clear (snd (clear w)) = clear w.
Proof.
  rewrite !clear_eq. rewrite (save_eq (emptied w)).
  cbn [emptied with_data with_prototype this data filePath disk].
  case_bool_decide as Hw; cbn [snd]; rewrite !save_eq;
    cbn [emptied with_data with_prototype this data filePath disk
         State.written unwritable files undeletable deleted data_prototype];
    rewrite ?bool_decide_eq_true_2, ?bool_decide_eq_false_2 by assumption.
  - reflexivity.
  - unfold State.written, with_data. cbn. now rewrite insert_insert_eq.
Qed.

(** X7: the order of [getAllKeys()] under [set], for a key other than
    ["__proto__"].  Writing an existing key keeps the order; a new key that
    is not an array index goes last; a new key that is an array index is
    inserted, the other keys keeping their relative order. *)
Theorem set_key_order (key : string) (value : value) (w : World) :
  value <> VNull -> value <> VUndefined -> key <> "__proto__" ->
  let ks := Object_keys (data (this w)) in
  let ks' := Object_keys (data (this (snd (set (VString key) value w)))) in
  (In key ks -> ks' = ks)
  /\ (~ In key ks -> array_index key = None -> ks' = (ks ++ [key])%list)
  /\ (~ In key ks -> exists l1 l2, ks = (l1 ++ l2)%list /\ ks' = (l1 ++ key :: l2)%list).
Proof.
  intros Hn Hu N ks ks'. subst ks ks'. rewrite (set_data _ _ _ Hn Hu N).
  unfold obj_set, obj_define. split; [|split].
  - intros I. apply obj_has_In in I. rewrite I. apply Object_keys_update.
  - intros I A. destruct (obj_has key (data (this w))) eqn:H;
      [apply obj_has_In in H; contradiction|].
    rewrite A. unfold Object_keys. now rewrite List.map_app.
  - intros I. destruct (obj_has key (data (this w))) eqn:H;
      [apply obj_has_In in H; contradiction|].
    destruct (array_index key) as [n|].
    + apply Object_keys_insert_index.
    + exists (Object_keys (data (this w))), [].
      unfold Object_keys. now rewrite List.map_app, app_nil_r.
Qed.

(** *** Guards and failures *)

(** X8: every method that takes a key rejects a key that is not a string
    with [INVALID_VALUE], whatever the other argument, and leaves memory
    and disk as they are.  For [objectFetch] and [deleteKey] this holds for
    either of their two keys. *)
Theorem non_string_key_rejected (key other : value) (w : World) :
  typeof key <> "string" ->
  set key other w = (Abrupt (Thrown INVALID_VALUE), w)
  /\ push key other w = (Abrupt (Thrown INVALID_VALUE), w)
  /\ delete key other w = (Abrupt (Thrown INVALID_VALUE), w)
  /\ remove key w = (Abrupt (Thrown INVALID_VALUE), w)
  /\ deleteEach key w = (Abrupt (Thrown INVALID_VALUE), w)
  /\ deleteKey key other w = (Abrupt (Thrown INVALID_VALUE), w)
  /\ deleteKey other key w = (Abrupt (Thrown INVALID_VALUE), w)
  /\ fetch key w = (Abrupt (Thrown INVALID_VALUE), w)
  /\ has key w = (Abrupt (Thrown INVALID_VALUE), w)
  /\ objectFetch key other w = (Abrupt (Thrown INVALID_VALUE), w)
  /\ objectFetch other key w = (Abrupt (Thrown INVALID_VALUE), w)
  /\ arrayFetch key other w = (Abrupt (Thrown INVALID_VALUE), w)
  /\ add key other w = (Abrupt (Thrown INVALID_VALUE), w)
  /\ subtract key other w = (Abrupt (Thrown INVALID_VALUE), w)
  /\ multiply key other w = (Abrupt (Thrown INVALID_VALUE), w)
  /\ divide key other w = (Abrupt (Thrown INVALID_VALUE), w).
Proof.
  intros H. apply typeof_not_string in H.
  rewrite set_eq, push_eq, delete_eq, remove_eq, deleteEach_eq, !deleteKey_eq,
    divide_eq.
  unfold Database.add, Database.subtract, Database.multiply.
  rewrite !arithmetic_eq.
  unfold bad_key_or_value, Database.fetch, Database.has, Database.objectFetch,
    Database.arrayFetch.
  rewrite H. cbn [negb orb]. rewrite orb_true_r. repeat split.
Qed.

(** X9: a mutating method that fails with anything but [FILE_NOT_FOUND]
    has changed nothing: memory and disk are as before the call.  This
    covers the eight mutating methods and the four arithmetic ones. *)
Theorem failure_before_save_changes_nothing (t : thrown) (w w' : World) :
  t <> Thrown FILE_NOT_FOUND ->
  (forall m, call m w = (Abrupt t, w') -> w' = w)
  /\ (forall key value, add key value w = (Abrupt t, w') -> w' = w)
  /\ (forall key value, subtract key value w = (Abrupt t, w') -> w' = w)
  /\ (forall key value, multiply key value w = (Abrupt t, w') -> w' = w)
  /\ (forall key value, divide key value w = (Abrupt t, w') -> w' = w).
Proof.
  intros Ht.
  assert (forall w0, save w0 = (Abrupt t, w') -> w' = w) as S.
  { intros w0. rewrite save_eq. case_bool_decide; congruence. }
  assert (forall op key value,
            arithmetic Number_toString op key value w = (Abrupt t, w') -> w' = w) as A.
  { intros op key value. rewrite arithmetic_eq.
    destruct (negb _ || negb _); [congruence|].
    destruct (typeof_reading _ =? "number"); [apply S | congruence]. }
  split; [|repeat split; try apply A].
  - intros [k v|k v|k v|ok k|k|k| |]; simpl.
    + rewrite set_eq. destruct (bad_key_or_value k v); [congruence | apply S].
    + rewrite push_eq. destruct (bad_key_or_value k v); [congruence | apply S].
    + rewrite delete_eq. destruct (bad_key_or_value k v); [congruence|].
      destruct (isArray_reading _); [apply S | congruence].
    + rewrite deleteKey_eq. destruct (negb _ || negb _); [congruence|].
      cbn zeta. destruct (ToBoolean_reading _ && _); [|congruence].
      destruct (Get (string_of ok) w) as [x| | |]; try apply S.
      destruct (prop_delete _ _); [apply S | congruence].
    + rewrite deleteEach_eq. destruct (negb _); [congruence | apply S].
    + rewrite remove_eq. destruct (negb _); [congruence | apply S].
    + rewrite clear_eq. apply S.
    + rewrite destroy_eq. destruct (unlink _ _); [apply S | congruence].
  - intros key value. rewrite divide_eq.
    destruct (negb _ || negb _); [congruence|].
    destruct (typeof_reading _ =? "number"); [|congruence].
    destruct (strict_equal _ _); [congruence | apply S].
Qed.

(** *** What no call touches *)

Lemma own_file_only_refl (w : World) : own_file_only w w.
Proof. unfold own_file_only. auto. Qed.

Lemma own_file_only_save (w w0 : World) :
  own_file_only w w0 -> own_file_only w (snd (save w0)).
Proof.
  intros (P & U & D & F). rewrite save_eq.
  case_bool_decide; simpl; [now repeat split|].
  repeat split; simpl; auto.
  intros p N. rewrite lookup_insert_ne by congruence. now apply F.
Qed.

Lemma own_file_only_frame (w w0 : World) :
  filePath (this w0) = filePath (this w) -> disk w0 = disk w ->
  own_file_only w w0.
Proof. intros P D. unfold own_file_only. rewrite P, D. auto. Qed.

(** X10: a call of a mutating or arithmetic method, whether it completes
    or fails, never changes [this.filePath], never creates, changes or
    deletes a file at another path, and leaves the permissions of the disk
    alone. *)
Theorem calls_touch_only_own_file (w : World) :
  (forall m, own_file_only w (snd (call m w)))
  /\ (forall key value, own_file_only w (snd (add key value w)))
  /\ (forall key value, own_file_only w (snd (subtract key value w)))
  /\ (forall key value, own_file_only w (snd (multiply key value w)))
  /\ (forall key value, own_file_only w (snd (divide key value w))).
Proof.
  pose proof (own_file_only_refl w) as R.
  assert (forall w0, filePath (this w0) = filePath (this w) -> disk w0 = disk w ->
                     own_file_only w (snd (save w0))) as S
    by (intros w0 P D; now apply own_file_only_save, own_file_only_frame).
  assert (forall k v, own_file_only w (snd (save (Put k v w)))) as SP
    by (intros k v; destruct (Put_frame k v w) as (P & D & _); now apply S).
  assert (forall k v, own_file_only w (snd (save (Replace k v w)))) as SR
    by (intros k v; destruct (Replace_frame k v w) as (P & D & _); now apply S).
  assert (forall op key value,
            own_file_only w (snd (arithmetic Number_toString op key value w))) as A.
  { intros op key value. rewrite arithmetic_eq.
    destruct (negb _ || negb _); [exact R|].
    destruct (typeof_reading _ =? "number"); [apply SP | exact R]. }
  split; [|split; [apply A|split; [apply A|split; [apply A|]]]].
  - intros [k v|k v|k v|ok k|k|k| |]; simpl.
    + rewrite set_eq. destruct (bad_key_or_value k v); [exact R | apply SP].
    + rewrite push_eq. destruct (bad_key_or_value k v); [exact R|].
      destruct (pushed_frame (string_of k) v w) as (P & D & _). now apply S.
    + rewrite delete_eq. destruct (bad_key_or_value k v); [exact R|].
      destruct (isArray_reading _); [apply SP | exact R].
    + rewrite deleteKey_eq. destruct (negb _ || negb _); [exact R|].
      cbn zeta. destruct (ToBoolean_reading _ && _); [|exact R].
      destruct (Get (string_of ok) w) as [x| | |]; try now apply S.
      * destruct (prop_delete _ _); [apply SR | exact R].
      * destruct (delete_member_frame (string_of k) w) as (P & D).
        apply S; [now rewrite P | exact D].
    + rewrite deleteEach_eq. destruct (negb _); [exact R | now apply S].
    + rewrite remove_eq. destruct (negb _); [exact R | now apply S].
    + rewrite clear_eq. now apply S.
    + rewrite destroy_eq. unfold unlink.
      case_bool_decide; [exact R|].
      destruct (files (disk w) !! filePath (this w)); [|exact R].
      apply own_file_only_save. unfold own_file_only. simpl.
      repeat split. intros p N. now rewrite lookup_delete_ne by congruence.
  - intros key value. rewrite divide_eq.
    destruct (negb _ || negb _); [exact R|].
    destruct (typeof_reading _ =? "number"); [|exact R].
    destruct (strict_equal _ _); [exact R | apply SP].
Qed.

(** *** [deleteEach] *)

Lemma deleteEach_data (pre : string) (w : World) :
  data (this (snd (deleteEach (VString pre) w)))
  = List.filter (fun p => negb (String.prefix pre (fst p))) (data (this w)).
Proof. rewrite deleteEach_eq. simpl. now rewrite save_this. Qed.

Lemma Get_deleteEach (pre k : string) (w : World) :
  Get k (snd (deleteEach (VString pre) w))
  = if String.prefix pre k && obj_has k (data (this w))
    then inherited (live w) (data_prototype (this w)) k
    else Get k w.
Proof.
  rewrite deleteEach_eq. simpl. rewrite Get_save, Get_with_data.
  rewrite (obj_has_filter_keys (fun x => negb (String.prefix pre x))).
  unfold Get. destruct (String.prefix pre k) eqn:P; simpl.
  - now destruct (obj_has k (data (this w))).
  - destruct (obj_has k (data (this w))); [|reflexivity].
    rewrite (obj_get_filter_keys (fun x => negb (String.prefix pre x)));
      [reflexivity | now rewrite P].
Qed.

(** X11: after [deleteEach(prefix)] no key that starts with [prefix] is
    stored: such a key fetches what the prototype of [this.data] gives for
    its name, which with the prototype of [{}] is [undefined] unless the
    key is the name of a member of [Object.prototype].  Every other key
    fetches what it did before, and [getAllKeys()] is the former list
    without the keys that start with [prefix], in the same order. *)
Theorem deleteEach_removes_prefixed (pre : string) (w : World) :
  let w' := snd (deleteEach (VString pre) w) in
  (forall k, String.prefix pre k = true ->
     ~ In k (Object_keys (data (this w')))
     /\ obj_has k (data (this w')) = false
     /\ fetch (VString k) w'
        = (Normal (inherited (live w) (data_prototype (this w)) k), w')
     /\ (data_prototype (this w) = ObjectPrototype ->
         in_names k Object_prototype_names = false ->
         fetch (VString k) w' = (Normal (Stored VUndefined), w')))
  /\ (forall k, String.prefix pre k = false ->
      fst (fetch (VString k) w') = fst (fetch (VString k) w))
  /\ fst (getAllKeys w')
     = Normal (List.filter (fun k => negb (String.prefix pre k))
                 (Object_keys (data (this w)))).
Proof.
  intros w'. pose proof (deleteEach_data pre w) as D. fold w' in D.
  split; [|split].
  - intros k H.
    assert (obj_has k (data (this w')) = false) as A.
    { rewrite D, (obj_has_filter_keys (fun k => negb (String.prefix pre k))).
      now rewrite H. }
    assert (fetch (VString k) w'
            = (Normal (inherited (live w) (data_prototype (this w)) k), w')) as F.
    { rewrite fetch_eq. f_equal. f_equal. subst w'. rewrite Get_deleteEach, H.
      unfold Get. now destruct (obj_has k (data (this w))). }
    split; [|split; [exact A|split; [exact F|]]].
    + intros I. apply obj_has_In in I. congruence.
    + intros P M. rewrite F, P.
      rewrite inherited_nothing; auto. apply live_is_member.
  - intros k H. rewrite !fetch_eq. cbn [fst]. f_equal. subst w'.
    now rewrite Get_deleteEach, H.
  - unfold getAllKeys, mbind, M_bind, this_data, mret, M_ret. simpl. f_equal.
    rewrite D. apply (Object_keys_filter (fun k => negb (String.prefix pre k))).
Qed.

(** *** [delete] *)

Lemma Put_this_congr (k : string) (v : value) (w1 w2 : World) :
  this w1 = this w2 -> deleted w1 = deleted w2 ->
  this (Put k v w1) = this (Put k v w2).
Proof.
  destruct w1 as [t1 d1 del1], w2 as [t2 d2 del2]. simpl.
  intros -> ->. unfold Put, live. simpl.
  destruct (obj_has k (data t2)); [reflexivity|].
  now destruct (reaches_setter _ _ _).
Qed.

Lemma Put_Put_array (k : string) (items : list (option value)) (w : World) :
  this (Put k (VArray items) (Put k (VArray items) w))
  = this (Put k (VArray items) w).
Proof.
  destruct (obj_has k (data (this w))) eqn:H;
    [|destruct (reaches_setter (live w) (data_prototype (this w)) k) eqn:R].
  - rewrite (Put_own_property k _ w) by now left.
    rewrite Put_own_property
      by (left; cbn; now rewrite obj_has_set, String.eqb_refl).
    cbn. now rewrite obj_set_set.
  - assert (Put k (VArray items) w = with_prototype (ArrayAsPrototype items) w)
      as E by (unfold Put; now rewrite H, R).
    rewrite E. apply reaches_setter_live in R. destruct R as [-> L].
    unfold Put. cbn [with_prototype this data data_prototype as_prototype].
    rewrite H. change (live (with_prototype _ w)) with (live w).
    unfold reaches_setter. rewrite L. reflexivity.
  - rewrite (Put_own_property k _ w) by now right.
    rewrite Put_own_property
      by (left; cbn; now rewrite obj_has_set, String.eqb_refl).
    cbn. now rewrite obj_set_set.
Qed.

Lemma delete_world (key : string) (value : value)
  (items : list (option Js.value)) (w : World) :
  value <> VNull -> value <> VUndefined ->
  Get key w = Stored (VArray items) ->
  delete (VString key) value w
  = save (Put key (VArray (arr_without same_reference value items)) w).
Proof.
  intros Hn Hu G. rewrite delete_eq, (not_null_undefined _ _ Hn Hu).
  cbn [string_of]. now rewrite G.
Qed.

(** X12: [delete(key, value)] with a primitive [value], on a key that
    reads as an array, stores the array of exactly the former elements
    that are not [===] to [value], each as often as before and in their
    order, without the holes.  A second [delete] of the same value changes
    nothing more in memory. *)
Theorem delete_removes_occurrences (key : string) (value : value)
  (items : list (option Js.value)) (w : World) :
  is_primitive value = true -> value <> VNull -> value <> VUndefined ->
  Get key w = Stored (VArray items) ->
  let w' := snd (delete (VString key) value w) in
  let kept :=
    List.filter (fun x => negb (strict_equal x value)) (present items) in
  Get key w' = Stored (VArray (List.map Some kept))
  /\ (forall x, In x kept <-> In x (present items) /\ strict_equal x value = false)
  /\ this (snd (delete (VString key) value w')) = this w'.
Proof.
  intros P Hn Hu G w' kept.
  set (f := fun item => negb (strict_equal item value)).
  assert (arr_without same_reference value items = List.map Some kept) as K
    by (rewrite (arr_without_primitive _ _ _ P); apply arr_filter_present).
  assert (Get key w' = Stored (VArray (List.map Some kept))) as G'.
  { subst w'. rewrite (delete_world _ _ _ _ Hn Hu G), Get_save, K.
    apply Get_Put_array. }
  split; [exact G'|]. split.
  - intros x. subst kept. rewrite filter_In. now rewrite negb_true_iff.
  - rewrite (delete_world _ _ _ _ Hn Hu G'), save_this.
    assert (arr_without same_reference value (List.map Some kept)
            = List.map Some kept) as I.
    { rewrite <- K. rewrite !(arr_without_primitive _ _ _ P).
      apply arr_filter_idem. }
    rewrite I. subst w'. rewrite (delete_world _ _ _ _ Hn Hu G), K.
    rewrite (Put_this_congr _ _ _ (Put key (VArray (List.map Some kept)) w))
      by (apply save_this || apply save_deleted).
    rewrite save_this. apply Put_Put_array.
Qed.

(** *** The arithmetic methods on a number *)

Lemma Get_stored (key : string) (v : value) (w : World) :
  obj_get key (data (this w)) = v -> v <> VUndefined ->
  obj_has key (data (this w)) = true /\ Get key w = Stored v.
Proof.
  intros G N.
  assert (obj_has key (data (this w)) = true) as H
    by (apply obj_has_of_get; congruence).
  split; [exact H|]. now rewrite (Get_own _ _ H), G.
Qed.

Lemma arithmetic_data (op : float -> float -> float) (key : string) (a n : float)
  (w : World) :
  obj_get key (data (this w)) = VNumber a ->
  data (this (snd (arithmetic Number_toString op (VString key) (VNumber n) w)))
  = obj_set key (VNumber (op a n)) (data (this w)).
Proof.
  intros G. destruct (Get_stored _ _ _ G) as [H G']; [discriminate|].
  rewrite arithmetic_eq. cbn [string_of typeof String.eqb negb orb].
  simpl. rewrite G'. simpl. rewrite save_this.
  now rewrite Put_own_property by now left.
Qed.

(** X13: on a key that holds the number [a], [add], [subtract] and
    [multiply] with operand [n] store [a + n], [a - n] and [a * n], and
    [divide] with an operand that is not zero stores [a / n], all in IEEE
    double arithmetic; the key keeps its position and no other key
    changes. *)
Theorem arithmetic_updates_number (key : string) (a n : float) (w : World) :
  obj_get key (data (this w)) = VNumber a ->
  let after (r : completion unit * World) (x : float) :=
    obj_get key (data (this (snd r))) = VNumber x
    /\ Object_keys (data (this (snd r))) = Object_keys (data (this w))
    /\ forall k, k <> key ->
       obj_get k (data (this (snd r))) = obj_get k (data (this w)) in
  after (add (VString key) (VNumber n) w) (a + n)%float
  /\ after (subtract (VString key) (VNumber n) w) (a - n)%float
  /\ after (multiply (VString key) (VNumber n) w) (a * n)%float
  /\ (PrimFloat.eqb n 0 = false ->
      after (divide (VString key) (VNumber n) w) (a / n)%float).
Proof.
  intros G after.
  destruct (Get_stored _ _ _ G) as [H G']; [discriminate|].
  assert (forall x r, data (this (snd r)) = obj_set key (VNumber x) (data (this w)) ->
                      after r x) as K.
  { intros x r D. unfold after. rewrite D. split; [apply obj_get_set|]. split.
    - unfold obj_set. rewrite H. apply Object_keys_update.
    - intros k N. now apply obj_get_set_other. }
  split; [apply K; now apply arithmetic_data|].
  split; [apply K; now apply arithmetic_data|].
  split; [apply K; now apply arithmetic_data|].
  intros Z. apply K. rewrite divide_eq. simpl. rewrite G'. simpl. rewrite Z.
  rewrite save_this. now rewrite Put_own_property by now left.
Qed.

(** X14: on a key that holds a number, [divide] by [0] or [-0] does not
    throw a [DatabaseError]: the catalog has no member [DIVISION_BY_ZERO],
    so the thrown value is [undefined].  The stored number, and everything
    else, is unchanged. *)
Theorem divide_by_zero_throws_undefined (key : string) (a z : float) (w : World) :
  obj_get key (data (this w)) = VNumber a ->
  PrimFloat.eqb z 0 = true ->
  divide (VString key) (VNumber z) w = (Abrupt ThrownUndefined, w).
Proof.
  intros G Z. destruct (Get_stored _ _ _ G) as [H G']; [discriminate|].
  rewrite divide_eq. simpl. rewrite G'. simpl. now rewrite Z.
Qed.

(** *** [push] and [arrayFetch] *)

Lemma push_world (key : string) (value : value) (w : World) :
  value <> VNull -> value <> VUndefined ->
  push (VString key) value w = save (pushed key value w).
Proof. intros Hn Hu. now rewrite push_eq, (not_null_undefined _ _ Hn Hu). Qed.

Lemma Get_push (key : string) (value : value) (w : World) :
  value <> VNull -> value <> VUndefined ->
  Get key (snd (push (VString key) value w))
  = Stored (VArray (items_of_reading (Get key w) ++ [Some value])%list).
Proof.
  intros Hn Hu. rewrite (push_world _ _ _ Hn Hu), Get_save. apply Get_pushed.
Qed.

(** X15: [push] appends at the end.  After [push(key, value)],
    [arrayFetch(key, n)] returns [value] for [n] the former length of the
    array (zero when the entry was not an array), and when the entry was an
    array every index below that length fetches what it did before. *)
Theorem push_then_arrayFetch (key : string) (value : value) (n : float) (w : World) :
  value <> VNull -> value <> VUndefined ->
  Number_isInteger (VNumber n) = true ->
  integer_value n = Z.of_nat (List.length (items_of_reading (Get key w))) ->
  let w' := snd (push (VString key) value w) in
  arrayFetch (VString key) (VNumber n) w' = (Normal value, w')
  /\ (isArray_reading (Get key w) = true ->
      forall m, Number_isInteger (VNumber m) = true ->
      (integer_value m < integer_value n)%Z ->
      fst (arrayFetch (VString key) (VNumber m) w')
      = fst (arrayFetch (VString key) (VNumber m) w)).
Proof.
  intros Hn Hu Hi Hl w'.
  pose proof (Get_push key value w Hn Hu) as G. fold w' in G.
  set (items := items_of_reading (Get key w)) in *.
  split.
  - rewrite (arrayFetch_eq _ _ _ Hi), G. cbn [isArray_reading Array_isArray
      items_of_reading]. unfold arr_get_number.
    rewrite Hl, length_app. simpl.
    replace ((0 <=? Z.of_nat (List.length items))%Z
             && (Z.of_nat (List.length items)
                 <? Z.of_nat (List.length items + 1))%Z) with true
      by (symmetry; apply andb_true_iff; split;
          [apply Z.leb_le | apply Z.ltb_lt]; lia).
    unfold arr_at. rewrite Nat2Z.id.
    now rewrite (list_lookup_middle items [] (Some value)).
  - intros A m Hm Hlt. rewrite !(arrayFetch_eq _ _ _ Hm), G, A.
    cbn [isArray_reading Array_isArray items_of_reading fst]. f_equal.
    fold items. unfold arr_get_number. rewrite length_app. simpl.
    destruct (0 <=? integer_value m)%Z eqn:P; simpl; [|reflexivity].
    apply Z.leb_le in P.
    replace (integer_value m <? Z.of_nat (List.length items + 1))%Z with true
      by (symmetry; apply Z.ltb_lt; lia).
    replace (integer_value m <? Z.of_nat (List.length items))%Z with true
      by (symmetry; apply Z.ltb_lt; lia).
    unfold arr_at. rewrite lookup_app_l by lia. reflexivity.
Qed.

Lemma Replace_default_prototype (k : string) (v : value) (w : World) :
  data_prototype (this w) = ObjectPrototype ->
  data_prototype (this (Replace k v w)) = ObjectPrototype.
Proof.
  intros P. unfold Replace. destruct (obj_has k (data (this w))); [exact P|].
  now rewrite P.
Qed.

Lemma pushed_default_prototype (k : string) (v : value) (w : World) :
  k <> "__proto__" -> data_prototype (this w) = ObjectPrototype ->
  data_prototype (this (pushed k v w)) = ObjectPrototype.
Proof.
  intros N P. unfold pushed. apply Replace_default_prototype.
  destruct (isArray_reading (Get k w)); [exact P|].
  now rewrite (Put_ordinary _ _ _ N).
Qed.

(** X16: two [push] calls on a key append their values in call order:
    the key then reads as the array of the former items followed by the
    first value and the second.  For a key other than ["__proto__"] in a
    store whose data has the prototype of [{}], that array is the entry
    stored at the key. *)
Theorem push_push_order (key : string) (v1 v2 : value) (w : World) :
  v1 <> VNull -> v1 <> VUndefined -> v2 <> VNull -> v2 <> VUndefined ->
  let w' := snd (push (VString key) v2 (snd (push (VString key) v1 w))) in
  let items := items_of_reading (Get key w) in
  Get key w' = Stored (VArray (items ++ [Some v1; Some v2])%list)
  /\ (key <> "__proto__" -> data_prototype (this w) = ObjectPrototype ->
      obj_get key (data (this w')) = VArray (items ++ [Some v1; Some v2])%list).
Proof.
  intros H1 H1' H2 H2' w' items.
  assert (Get key w' = Stored (VArray (items ++ [Some v1; Some v2])%list)) as G.
  { subst w'. rewrite (Get_push _ _ _ H2 H2'), (Get_push _ _ _ H1 H1').
    cbn [items_of_reading]. now rewrite <- app_assoc. }
  split; [exact G|]. intros N P.
  assert (obj_has key (data (this w')) = true) as O.
  { subst w'. rewrite (push_world _ _ _ H2 H2'), save_this.
    apply pushed_own; [|exact N].
    rewrite (push_world _ _ _ H1 H1'), save_this.
    now apply pushed_default_prototype. }
  rewrite (Get_own _ _ O) in G. congruence.
Qed.

(** *** [deleteKey] *)

Lemma Object_keys_Replace (k : string) (v : value) (w : World) :
  Object_keys (data (this (Replace k v w))) = Object_keys (data (this w)).
Proof.
  unfold Replace. destruct (obj_has k (data (this w))).
  - apply Object_keys_update.
  - destruct (data_prototype (this w)) as [| |pitems|pprops]; try reflexivity.
    + now destruct (array_index k).
    + now destruct (obj_has k pprops).
Qed.

Lemma deleteKey_world (objectKey key : string) (target target' : value)
  (w : World) :
  Get objectKey w = Stored target ->
  ToBoolean target && (typeof target =? "object") = true ->
  prop_delete key target = Some target' ->
  deleteKey (VString objectKey) (VString key) w
  = save (Replace objectKey target' w).
Proof.
  intros G T P. rewrite deleteKey_eq. cbn [string_of typeof String.eqb negb orb].
  simpl. rewrite G. cbn [ToBoolean_reading typeof_reading]. now rewrite T, P.
Qed.

Lemma live_save (w : World) : live (snd (save w)) = live w.
Proof. rewrite save_eq. now case_bool_decide. Qed.

Lemma live_Replace (k : string) (v : value) (w : World) :
  live (Replace k v w) = live w.
Proof.
  unfold live. destruct (Replace_frame k v w) as (_ & _ & D). now rewrite D.
Qed.

(** X17: on a key that reads as an object, [deleteKey(objectKey, key)]
    removes that sub-key from the object: afterwards [objectFetch] returns
    for [key] what [Object.prototype] gives, which is [undefined] unless
    [key] is the name of one of its members, and returns the former result
    for every other sub-key; the keys of the store and their order are
    unchanged. *)
Theorem deleteKey_removes_subkey (objectKey key : string)
  (props : object) (w : World) :
  Get objectKey w = Stored (VObject props) ->
  let w' := snd (deleteKey (VString objectKey) (VString key) w) in
  objectFetch (VString objectKey) (VString key) w'
  = (Normal (from_Object_prototype (live w) TheObjectPrototype key), w')
  /\ (in_names key Object_prototype_names = false ->
      objectFetch (VString objectKey) (VString key) w'
      = (Normal (Stored VUndefined), w'))
  /\ (forall k, k <> key ->
      fst (objectFetch (VString objectKey) (VString k) w')
      = fst (objectFetch (VString objectKey) (VString k) w))
  /\ Object_keys (data (this w')) = Object_keys (data (this w)).
Proof.
  intros G w'.
  assert (deleteKey (VString objectKey) (VString key) w
          = save (Replace objectKey (VObject (obj_delete key props)) w)) as D
    by (apply (deleteKey_world _ _ (VObject props)); auto).
  assert (Get objectKey w' = Stored (VObject (obj_delete key props))) as G'.
  { subst w'. rewrite D, Get_save.
    apply (Get_Replace_deleted objectKey key (VObject props)); auto. }
  assert (live w' = live w) as L
    by (subst w'; rewrite D, live_save; apply live_Replace).
  assert (objectFetch (VString objectKey) (VString key) w'
          = (Normal (from_Object_prototype (live w) TheObjectPrototype key), w'))
    as F.
  { rewrite objectFetch_eq, G', L. cbn. unfold obj_own.
    now rewrite obj_has_delete, String.eqb_refl. }
  split; [exact F|]. split; [|split].
  - intros M. rewrite F. unfold from_Object_prototype.
    destruct (live w key) eqn:E; [|reflexivity].
    apply live_is_member in E. congruence.
  - intros k N. rewrite !objectFetch_eq, G, G', L. cbn. unfold obj_own.
    rewrite obj_has_delete.
    assert (String.eqb key k = false) as -> by (apply String.eqb_neq; congruence).
    cbn. now rewrite obj_get_delete_other.
  - subst w'. rewrite D, save_this. apply Object_keys_Replace.
Qed.

(** X18: on an entry that holds an array, [deleteKey] acts on the array.
    With the key ["length"] it throws a [TypeError] and changes nothing.
    With an array index inside the array it leaves a hole: the array keeps
    its length, the element at the index reads as [undefined], and the
    other elements stay. *)
Theorem deleteKey_on_array (objectKey : string)
  (items : list (option value)) (w : World) :
  obj_get objectKey (data (this w)) = VArray items ->
  deleteKey (VString objectKey) (VString "length") w = (Abrupt ThrownTypeError, w)
  /\ (forall key i, array_index key = Some i ->
      exists items',
        obj_get objectKey
          (data (this (snd (deleteKey (VString objectKey) (VString key) w))))
        = VArray items'
        /\ List.length items' = List.length items
        /\ arr_at (N.to_nat i) items' = VUndefined
        /\ (forall j, j <> N.to_nat i -> items' !! j = items !! j)).
Proof.
  intros G. destruct (Get_stored _ _ _ G) as [H G']; [discriminate|]. split.
  - rewrite deleteKey_eq. simpl. now rewrite G'.
  - intros key i I. exists (<[N.to_nat i := None]> items).
    split; [|split; [|split]].
    + rewrite (deleteKey_world _ _ (VArray items)
                 (VArray (<[N.to_nat i := None]> items))); auto.
      * rewrite save_this. unfold Replace. rewrite H. cbn.
        now apply obj_get_update.
      * simpl. unfold arr_delete. now rewrite I.
    + apply length_insert.
    + unfold arr_at.
      destruct (decide (N.to_nat i < List.length items)%nat) as [L|L].
      * now rewrite list_lookup_insert_eq.
      * rewrite list_insert_ge by lia.
        now rewrite (proj2 (lookup_ge_None items (N.to_nat i))) by lia.
    + intros j N. now apply list_lookup_insert_ne.
Qed.

(** *** [destroy] without a file to delete *)

(** X19: when the backing file does not exist, or cannot be deleted,
    [destroy] fails with [FILE_NOT_FOUND] and clears nothing: the data in
    memory and the disk are as before. *)
Theorem destroy_without_file (w : World) :
  files (disk w) !! filePath (this w) = None
  \/ filePath (this w) ∈ undeletable (disk w) ->
  destroy w = (Abrupt (Thrown FILE_NOT_FOUND), w).
Proof.
  intros H. rewrite destroy_eq. unfold unlink.
  case_bool_decide; [reflexivity|].
  destruct H as [H|H]; [now rewrite H | contradiction].
Qed.

(** *** Numbers that are not finite *)

(** X20: [delete(key, NaN)] removes nothing.  [NaN] is not [===] to any
    value, itself included, so on an array without holes the call leaves
    every element in place, the [NaN] elements too. *)
Theorem delete_NaN_removes_nothing (key : string) (n : float)
  (items : list (option value)) (w : World) :
  PrimFloat.is_nan n = true ->
  obj_get key (data (this w)) = VArray items ->
  ~ In None items ->
  data (this (snd (delete (VString key) (VNumber n) w))) = data (this w).
Proof.
  intros Hn G Hh. destruct (Get_stored _ _ _ G) as [H G']; [discriminate|].
  rewrite (delete_world key (VNumber n) items w) by (discriminate || assumption).
  rewrite save_this, Put_own_property by now left.
  rewrite arr_without_primitive by reflexivity.
  rewrite arr_filter_all; auto.
  - cbn. unfold obj_set. rewrite H. rewrite <- G. apply obj_update_get.
  - intros x. apply negb_true_iff. destruct x; simpl; auto.
    now apply eqb_nan_r.
Qed.

Lemma same_text_stringify (o1 o2 : object) :
  same_text Number_toString o1 o2 -> stringify o1 = stringify o2.
Proof.
  intros H. unfold JSON_stringify. cbn [SerializeJSONProperty].
  match goal with
  | |- wrap _ _ _ _ (?f o1) = _ => assert (f o1 = f o2) as E
  end.
  { induction H as [|[k1 x1] [k2 x2] r1 r2 [K S] _ IH]; [reflexivity|].
    simpl in K. subst k2. simpl in S. cbn [fst snd].
    now rewrite S, IH. }
  now rewrite E.
Qed.

Lemma same_text_refl (o : object) : same_text Number_toString o o.
Proof. induction o; constructor; auto. Qed.

Lemma same_text_set (k : string) (v1 v2 : value) (o : object) :
  (forall indent,
     SerializeJSONProperty Number_toString indent v1
     = SerializeJSONProperty Number_toString indent v2) ->
  same_text Number_toString (obj_set k v1 o) (obj_set k v2 o).
Proof.
  intros S. unfold obj_set, obj_define. destruct (obj_has k o).
  - induction o as [|[k0 v0] r IH]; simpl; [constructor|].
    destruct (String.eqb k0 k).
    + constructor; [auto | apply same_text_refl].
    + constructor; auto.
  - destruct (array_index k) as [n|].
    + induction o as [|[k0 v0] r IH]; simpl.
      * constructor; [auto | constructor].
      * destruct (array_index k0) as [n'|]; [destruct (n' <? n)%N|];
          constructor; auto; apply same_text_refl.
    + apply Forall2_app; [apply same_text_refl|].
      constructor; [auto | constructor].
Qed.

(** X21: [set] accepts [NaN], [Infinity] and [-Infinity], but the document
    it writes records [null] for them: for a key other than ["__proto__"],
    when the write goes through, the file holds exactly the text that the
    same store with [null] at that key would serialize to, although [set]
    rejects a [null] value itself. *)
Theorem non_finite_number_saved_as_null (key : string) (n : float) (w : World) :
  PrimFloat.is_finite n = false ->
  filePath (this w) ∉ unwritable (disk w) ->
  key <> "__proto__" ->
  let w' := snd (set (VString key) (VNumber n) w) in
  fetch (VString key) w' = (Normal (Stored (VNumber n)), w')
  /\ files (disk w') !! filePath (this w')
     = Some (stringify (obj_set key VNull (data (this w))))
  /\ set (VString key) VNull w = (Abrupt (Thrown INVALID_VALUE), w).
Proof.
  intros F W N w'. subst w'. split; [|split].
  - rewrite fetch_eq, set_world by discriminate.
    now rewrite Get_save, Get_Put_same.
  - rewrite set_eq. simpl. rewrite (Put_ordinary _ _ _ N), save_eq.
    cbn [with_data this filePath disk].
    rewrite bool_decide_eq_false_2 by exact W. simpl.
    rewrite lookup_insert_eq. f_equal. apply same_text_stringify, same_text_set.
    intros indent. simpl. now rewrite F.
  - reflexivity.
Qed.

End Engine.

(** ** The statements on sample inputs *)

(** C1 as stated fails.  On a disk that refuses the write, [set] fails and
    leaves memory ahead of the document ([Sample.ahead]); a [delete] on the
    string entry then completes normally, and the document is still the
    old one. *)
Lemma delete_success_stale_document :
  Database.set Sample.Number_toString (VString "name") (VString "db")
    (refuse_writes Sample.settled)
  = (Abrupt (Thrown FILE_NOT_FOUND), Sample.ahead)
  /\ State.call Sample.Number_toString Sample.same_reference
       (CallDelete (VString "name") (VNumber 1)) Sample.ahead
     = (Normal tt, Sample.ahead)
  /\ obj_get "name" (data (this Sample.ahead)) = VString "db"
  /\ files (disk Sample.ahead) !! Sample.path
     = Some (JSON_stringify Sample.Number_toString Sample.doc)
  /\ ~ State.synced Sample.Number_toString Sample.ahead.
Proof.
  split; [vm_compute; reflexivity|].
  split; [vm_compute; reflexivity|].
  split; [vm_compute; reflexivity|].
  split; [vm_compute; reflexivity|].
  intros H. vm_compute in H. discriminate H.
Qed.

Lemma mutation_success_synced_witness :
  State.call Sample.Number_toString Sample.same_reference
    (CallSet (VString "hits") (VNumber 5)) Sample.settled
  = (Normal tt, Sample.bumped)
  /\ State.synced Sample.Number_toString Sample.bumped.
Proof.
  assert (State.call Sample.Number_toString Sample.same_reference
            (CallSet (VString "hits") (VNumber 5)) Sample.settled
          = (Normal tt, Sample.bumped)) as H
    by (vm_compute; reflexivity).
  split; [exact H|].
  exact (mutation_success_synced Sample.Number_toString Sample.same_reference
           _ _ _ H).
Defined.

(** The catalog declares no member [DIVISION_BY_ZERO]. *)
Lemma DIVISION_BY_ZERO_undeclared : errors "DIVISION_BY_ZERO" = ThrownUndefined.
Proof. reflexivity. Qed.

(** C2 as stated fails: on an entry that holds a string, [divide] by zero
    fails with [INVALID_VALUE], which is not what the zero-divisor guard
    throws. *)
Lemma divide_zero_on_string_entry :
  Database.divide Sample.Number_toString (VString "name") (VNumber 0) Sample.settled
  = (Abrupt (Thrown INVALID_VALUE), Sample.settled)
  /\ Thrown INVALID_VALUE <> errors "DIVISION_BY_ZERO".
Proof.
  split.
  - vm_compute. reflexivity.
  - vm_compute. discriminate.
Qed.

Lemma divide_by_zero_guard_witness :
  PrimFloat.eqb 0 0 = true
  /\ Database.divide Sample.Number_toString (VString "hits") (VNumber 0) Sample.settled
     = (Abrupt (errors "DIVISION_BY_ZERO"), Sample.settled).
Proof.
  split; [reflexivity|].
  exact (divide_by_zero_guard Sample.Number_toString "hits" 0 Sample.settled eq_refl).
Defined.

(** C5 as stated fails for a key that is absent and inherits a number.
    After [push("__proto__", 1)] the prototype of [this.data] is the array
    [[1]]; the key ["length"] is not stored, and [add("length", 1)]
    completes and initialises it, from the inherited length, to [2]. *)
Lemma add_initialises_absent_key :
  obj_has "length" (data (this Sample.adopted)) = false
  /\ fst (getAllKeys Sample.adopted) = Normal ["name"; "hits"; "tags"]
  /\ fst (Database.add Sample.Number_toString (VString "length") (VNumber 1)
            Sample.adopted) = Normal tt
  /\ obj_get "length"
       (data (this (snd (Database.add Sample.Number_toString (VString "length")
                           (VNumber 1) Sample.adopted))))
     = VNumber 2.
Proof.
  split; [vm_compute; reflexivity|].
  split; [vm_compute; reflexivity|].
  split; vm_compute; reflexivity.
Qed.

Lemma arithmetic_requires_number_witness :
  (typeof_reading (Get "missing" Sample.settled) <> "number"
   \/ (obj_has "missing" (data (this Sample.settled)) = false
       /\ data_prototype (this Sample.settled) = ObjectPrototype))
  /\ Database.add Sample.Number_toString (VString "missing") (VNumber 1) Sample.settled
     = (Abrupt (Thrown INVALID_VALUE), Sample.settled).
Proof.
  assert (typeof_reading (Get "missing" Sample.settled) <> "number"
          \/ (obj_has "missing" (data (this Sample.settled)) = false
              /\ data_prototype (this Sample.settled) = ObjectPrototype)) as H
    by (right; split; reflexivity).
  split; [exact H|].
  exact (proj1 (arithmetic_requires_number Sample.Number_toString "missing" 1
                  Sample.settled H)).
Defined.

(** C3 as stated fails: the entry [tags] is an array, and both methods act
    on it: [objectFetch] returns its first element, [deleteKey] punches a
    hole into it and saves. *)
Lemma object_methods_act_on_array :
  objectFetch (VString "tags") (VString "0") Sample.settled
  = (Normal (Stored (VString "a")), Sample.settled)
  /\ fst (Database.deleteKey Sample.Number_toString (VString "tags") (VString "0")
            Sample.settled) = Normal tt
  /\ obj_get "tags"
       (data (this (snd (Database.deleteKey Sample.Number_toString
                           (VString "tags") (VString "0") Sample.settled))))
     = VArray [None; Some (VString "b")].
Proof.
  split; [vm_compute; reflexivity|].
  split; vm_compute; reflexivity.
Qed.

(** The inherited key ["__proto__"] reads [Object.prototype], which the
    object methods accept as well: [objectFetch] returns its members, and
    [deleteKey] deletes one of them, after which [has] cannot call
    [hasOwnProperty] any more. *)
Lemma object_methods_act_on_Object_prototype :
  objectFetch (VString "__proto__") (VString "toString") Sample.settled
  = (Normal (BuiltinFunction ObjectProto "toString"), Sample.settled)
  /\ fst (Database.deleteKey Sample.Number_toString (VString "__proto__")
            (VString "hasOwnProperty") Sample.settled) = Normal tt
  /\ fst (has (VString "name")
            (snd (Database.deleteKey Sample.Number_toString (VString "__proto__")
                    (VString "hasOwnProperty") Sample.settled)))
     = Abrupt ThrownTypeError.
Proof.
  split; [vm_compute; reflexivity|].
  split; vm_compute; reflexivity.
Qed.



(** C7 as stated fails for a key that is absent and inherits an array.
    After [push("__proto__", 1)] the key ["__proto__"] is not stored, yet
    [arrayFetch("__proto__", 0)] returns the pushed value instead of
    failing with [ARRAY_NOT_FOUND]. *)
Lemma arrayFetch_reads_inherited_array :
  obj_has "__proto__" (data (this Sample.adopted)) = false
  /\ fst (getAllKeys Sample.adopted) = Normal ["name"; "hits"; "tags"]
  /\ arrayFetch (VString "__proto__") (VNumber 0) Sample.adopted
     = (Normal (VNumber 1), Sample.adopted).
Proof.
  split; [vm_compute; reflexivity|].
  split; vm_compute; reflexivity.
Qed.

Lemma arrayFetch_spec_witness :
  Number_isInteger (VNumber 1) = true
  /\ arrayFetch (VString "tags") (VNumber 1) Sample.settled
     = (Normal (VString "b"), Sample.settled).
Proof.
  assert (Number_isInteger (VNumber 1) = true) as H by (vm_compute; reflexivity).
  split; [exact H|].
  refine (proj1 (proj2 (proj2 (arrayFetch_spec "tags" 1 Sample.settled H)))
            [Some (VString "a"); Some (VString "b")] (VString "b") _ _ _).
  - reflexivity.
  - vm_compute. discriminate.
  - vm_compute. reflexivity.
Defined.

Lemma destroy_recreates_document_witness :
  Database.destroy Sample.Number_toString Sample.settled
  = (Normal tt, Sample.destroyed)
  /\ getAllKeys Sample.destroyed = (Normal [], Sample.destroyed)
  /\ files (disk Sample.destroyed) !! Sample.path = Some "{}".
Proof.
  assert (Database.destroy Sample.Number_toString Sample.settled
          = (Normal tt, Sample.destroyed)) as H
    by (vm_compute; reflexivity).
  split; [exact H|].
  pose proof (destroy_recreates_document Sample.Number_toString _ _ H) as [K [F _]].
  split; [exact K | exact F].
Defined.

Lemma save_failure_keeps_mutation_witness :
  State.perform Sample.Number_toString Sample.same_reference
    (Mutation (CallSet (VString "hits") (VNumber 5))) Sample.settled
  = (Normal tt, Sample.bumped)
  /\ returns_unsaved (Mutation (CallSet (VString "hits") (VNumber 5)))
       Sample.settled = false
  /\ exists w2,
       State.perform Sample.Number_toString Sample.same_reference
         (Mutation (CallSet (VString "hits") (VNumber 5)))
         (refuse_writes Sample.settled)
       = (Abrupt (Thrown FILE_NOT_FOUND), w2)
       /\ Get "hits" w2 = Stored (VNumber 5)
       /\ this w2 = this Sample.bumped
       /\ files (disk w2) = files (disk Sample.settled).
Proof.
  assert (State.perform Sample.Number_toString Sample.same_reference
            (Mutation (CallSet (VString "hits") (VNumber 5))) Sample.settled
          = (Normal tt, Sample.bumped)) as H
    by (vm_compute; reflexivity).
  split; [exact H|]. split; [reflexivity|].
  destruct (save_failure_keeps_mutation Sample.Number_toString
              Sample.same_reference _ _ _ H eq_refl) as (w2 & R & M & T & F & _).
  exists w2. split; [exact R|]. split; [|split; [exact T | exact F]].
  apply M. discriminate.
Defined.

(** C9 as stated fails: the key ["toString"] does not exist in the store,
    yet [fetch] returns the method that [this.data] inherits, not
    [undefined]. *)
Lemma fetch_returns_inherited_member :
  obj_has "toString" (data (this Sample.settled)) = false
  /\ fst (getAllKeys Sample.settled) = Normal ["name"; "hits"; "tags"]
  /\ fetch (VString "toString") Sample.settled
     = (Normal (BuiltinFunction ObjectProto "toString"), Sample.settled)
  /\ typeof_reading (BuiltinFunction ObjectProto "toString") = "function".
Proof.
  split; [reflexivity|]. split; [reflexivity|].
  split; [vm_compute; reflexivity | reflexivity].
Qed.

Lemma reads_leave_state_witness :
  fetch (VString "missing") Sample.settled
  = (Normal (Stored VUndefined), Sample.settled)
  /\ fetch (VString "hits") Sample.settled
     = (Normal (Stored (VNumber 4)), Sample.settled).
Proof.
  pose proof (reads_leave_state Sample.settled)
    as (_ & _ & _ & _ & _ & _ & F & _ & A).
  split; [apply A; reflexivity | apply F; reflexivity].
Defined.

(** *** The further properties on sample inputs *)

Lemma set_then_fetch_witness :
  VNumber 5 <> VNull /\ VNumber 5 <> VUndefined /\ "hits" <> "__proto__"
  /\ fetch (VString "hits")
       (snd (Database.set Sample.Number_toString (VString "hits") (VNumber 5)
               Sample.settled))
     = (Normal (Stored (VNumber 5)),
        snd (Database.set Sample.Number_toString (VString "hits") (VNumber 5)
               Sample.settled)).
Proof.
  assert (VNumber 5 <> VNull) as Hn by discriminate.
  assert (VNumber 5 <> VUndefined) as Hu by discriminate.
  assert ("hits" <> "__proto__") as Hk by discriminate.
  split; [exact Hn | split; [exact Hu | split; [exact Hk |]]].
  exact (proj1 (set_then_fetch Sample.Number_toString "hits" (VNumber 5)
                  Sample.settled Hn Hu Hk)).
Defined.

(** At the key ["__proto__"] a [set] stores nothing: the number is handed
    to the inherited setter, which ignores it, and the key still reads
    [Object.prototype]. *)
Lemma set_at_proto_stores_nothing :
  let r := Database.set Sample.Number_toString (VString "__proto__") (VNumber 5)
             Sample.settled in
  fst r = Normal tt
  /\ this (snd r) = this Sample.settled
  /\ fst (fetch (VString "__proto__") (snd r)) = Normal TheObjectPrototype.
Proof.
  cbv zeta. split; [vm_compute; reflexivity|].
  split; vm_compute; reflexivity.
Qed.

(** At the key ["__proto__"] the first of two writes is not overwritten:
    an object written first stays the prototype of [this.data] when the
    second write is a number, and its properties show through [fetch]. *)
Lemma set_at_proto_is_not_overwritten :
  let first := VObject [("a", VNumber 1)] in
  let set := Database.set Sample.Number_toString (VString "__proto__") in
  fst (fetch (VString "a")
         (snd (set (VNumber 2) (snd (set first Sample.settled)))))
  = Normal (Stored (VNumber 1))
  /\ fst (fetch (VString "a") (snd (set (VNumber 2) Sample.settled)))
     = Normal (Stored VUndefined).
Proof. cbv zeta. split; vm_compute; reflexivity. Qed.

Lemma set_overwrites_set_witness :
  VNumber 5 <> VNull /\ VNumber 5 <> VUndefined
  /\ VString "x" <> VNull /\ VString "x" <> VUndefined
  /\ "hits" <> "__proto__"
  /\ Database.set Sample.Number_toString (VString "hits") (VString "x")
       (snd (Database.set Sample.Number_toString (VString "hits") (VNumber 5)
               Sample.settled))
     = Database.set Sample.Number_toString (VString "hits") (VString "x")
         Sample.settled.
Proof.
  assert (VNumber 5 <> VNull) as H1 by discriminate.
  assert (VNumber 5 <> VUndefined) as H2 by discriminate.
  assert (VString "x" <> VNull) as H3 by discriminate.
  assert (VString "x" <> VUndefined) as H4 by discriminate.
  assert ("hits" <> "__proto__") as H5 by discriminate.
  split; [exact H1 | split; [exact H2 | split; [exact H3 | split; [exact H4 |
    split; [exact H5 |]]]]].
  exact (set_overwrites_set Sample.Number_toString "hits" _ _ Sample.settled
           H1 H2 H3 H4 H5).
Defined.

Lemma has_after_set_and_remove_witness :
  VBool true <> VNull /\ VBool true <> VUndefined
  /\ typeof_reading (Get "hasOwnProperty" Sample.settled) = "function"
  /\ "flag" <> "hasOwnProperty" /\ "flag" <> "__proto__"
  /\ fst (has (VString "flag")
            (snd (Database.set Sample.Number_toString (VString "flag") (VBool true)
                    Sample.settled))) = Normal true.
Proof.
  assert (VBool true <> VNull) as H1 by discriminate.
  assert (VBool true <> VUndefined) as H2 by discriminate.
  assert (typeof_reading (Get "hasOwnProperty" Sample.settled) = "function") as H3
    by (vm_compute; reflexivity).
  assert ("flag" <> "hasOwnProperty") as H4 by discriminate.
  assert ("flag" <> "__proto__") as H5 by discriminate.
  split; [exact H1 | split; [exact H2 | split; [exact H3 | split; [exact H4 |
    split; [exact H5 |]]]]].
  exact (proj1 (has_after_set_and_remove Sample.Number_toString "flag" (VBool true)
                  Sample.settled H1 H2 H3 H4 H5)).
Defined.

Lemma has_shadowed_by_stored_key_witness :
  VNumber 1 <> VNull /\ VNumber 1 <> VUndefined
  /\ fst (has (VString "name")
            (snd (Database.set Sample.Number_toString (VString "hasOwnProperty")
                    (VNumber 1) Sample.settled)))
     = Abrupt ThrownTypeError.
Proof.
  assert (VNumber 1 <> VNull) as H1 by discriminate.
  assert (VNumber 1 <> VUndefined) as H2 by discriminate.
  split; [exact H1 | split; [exact H2 |]].
  exact (f_equal fst (has_shadowed_by_stored_key Sample.Number_toString "name"
                        (VNumber 1) Sample.settled H1 H2)).
Defined.

Lemma set_key_order_witness :
  VNumber 1 <> VNull /\ VNumber 1 <> VUndefined /\ "zeta" <> "__proto__"
  /\ ~ In "zeta" (Object_keys (data (this Sample.settled)))
  /\ array_index "zeta" = None
  /\ Object_keys
       (data (this (snd (Database.set Sample.Number_toString (VString "zeta")
                           (VNumber 1) Sample.settled))))
     = (Object_keys (data (this Sample.settled)) ++ ["zeta"])%list.
Proof.
  assert (VNumber 1 <> VNull) as H1 by discriminate.
  assert (VNumber 1 <> VUndefined) as H2 by discriminate.
  assert ("zeta" <> "__proto__") as H5 by discriminate.
  assert (~ In "zeta" (Object_keys (data (this Sample.settled)))) as H3
    by (simpl; intros [H|[H|[H|[]]]]; discriminate H).
  assert (array_index "zeta" = None) as H4 by reflexivity.
  split; [exact H1 | split; [exact H2 | split; [exact H5 | split; [exact H3 |
    split; [exact H4 |]]]]].
  exact (proj1 (proj2 (set_key_order Sample.Number_toString "zeta" (VNumber 1)
                         Sample.settled H1 H2 H5)) H3 H4).
Defined.

Lemma non_string_key_rejected_witness :
  typeof (VNumber 7) <> "string"
  /\ Database.set Sample.Number_toString (VNumber 7) (VString "x") Sample.settled
     = (Abrupt (Thrown INVALID_VALUE), Sample.settled).
Proof.
  assert (typeof (VNumber 7) <> "string") as H by discriminate.
  split; [exact H|].
  exact (proj1 (non_string_key_rejected Sample.Number_toString
                  Sample.same_reference (VNumber 7) (VString "x")
                  Sample.settled H)).
Defined.

Lemma failure_before_save_changes_nothing_witness :
  let r := State.call Sample.Number_toString Sample.same_reference
             (CallDeleteKey (VString "tags") (VString "length")) Sample.settled in
  ThrownTypeError <> Thrown FILE_NOT_FOUND
  /\ r = (Abrupt ThrownTypeError, snd r)
  /\ snd r = Sample.settled.
Proof.
  intros r.
  assert (ThrownTypeError <> Thrown FILE_NOT_FOUND) as Ht by discriminate.
  assert (r = (Abrupt ThrownTypeError, snd r)) as H by (vm_compute; reflexivity).
  split; [exact Ht|]. split; [exact H|].
  exact (proj1 (failure_before_save_changes_nothing Sample.Number_toString
                  Sample.same_reference ThrownTypeError Sample.settled (snd r) Ht)
           (CallDeleteKey (VString "tags") (VString "length")) H).
Defined.

Lemma delete_removes_occurrences_witness :
  is_primitive (VNumber 1) = true
  /\ VNumber 1 <> VNull /\ VNumber 1 <> VUndefined
  /\ Get "scores" Sample.fileless
     = Stored (VArray [Some (VNumber 1); Some (VNumber PrimFloat.nan);
                       Some (VNumber 1)])
  /\ Get "scores"
       (snd (Database.delete Sample.Number_toString Sample.same_reference
               (VString "scores") (VNumber 1) Sample.fileless))
     = Stored (VArray (List.map Some
         (List.filter (fun x => negb (strict_equal x (VNumber 1)))
            (present [Some (VNumber 1); Some (VNumber PrimFloat.nan);
                      Some (VNumber 1)])))).
Proof.
  assert (is_primitive (VNumber 1) = true) as H0 by reflexivity.
  assert (VNumber 1 <> VNull) as H1 by discriminate.
  assert (VNumber 1 <> VUndefined) as H2 by discriminate.
  assert (Get "scores" Sample.fileless
          = Stored (VArray [Some (VNumber 1); Some (VNumber PrimFloat.nan);
                            Some (VNumber 1)]))
    as H3 by reflexivity.
  split; [exact H0 | split; [exact H1 | split; [exact H2 | split; [exact H3 |]]]].
  exact (proj1 (delete_removes_occurrences Sample.Number_toString
                  Sample.same_reference "scores" (VNumber 1)
                  _ Sample.fileless H0 H1 H2 H3)).
Defined.

Lemma arithmetic_updates_number_witness :
  obj_get "hits" (data (this Sample.settled)) = VNumber 4
  /\ obj_get "hits"
       (data (this (snd (Database.add Sample.Number_toString (VString "hits")
                           (VNumber 3) Sample.settled))))
     = VNumber (4 + 3)%float.
Proof.
  assert (obj_get "hits" (data (this Sample.settled)) = VNumber 4) as H
    by reflexivity.
  split; [exact H|].
  exact (proj1 (proj1 (arithmetic_updates_number Sample.Number_toString "hits" 4 3
                         Sample.settled H))).
Defined.

Lemma divide_by_zero_throws_undefined_witness :
  obj_get "hits" (data (this Sample.settled)) = VNumber 4
  /\ PrimFloat.eqb (-0)%float 0 = true
  /\ Database.divide Sample.Number_toString (VString "hits") (VNumber (-0)%float)
       Sample.settled
     = (Abrupt ThrownUndefined, Sample.settled).
Proof.
  assert (obj_get "hits" (data (this Sample.settled)) = VNumber 4) as H
    by reflexivity.
  assert (PrimFloat.eqb (-0)%float 0 = true) as Z by reflexivity.
  split; [exact H | split; [exact Z |]].
  exact (divide_by_zero_throws_undefined Sample.Number_toString "hits" 4 (-0)%float
           Sample.settled H Z).
Defined.

Lemma push_then_arrayFetch_witness :
  VString "c" <> VNull /\ VString "c" <> VUndefined
  /\ Number_isInteger (VNumber 2) = true
  /\ integer_value 2
     = Z.of_nat (List.length (items_of_reading (Get "tags" Sample.settled)))
  /\ fst (arrayFetch (VString "tags") (VNumber 2)
            (snd (Database.push Sample.Number_toString (VString "tags") (VString "c")
                    Sample.settled)))
     = Normal (VString "c").
Proof.
  assert (VString "c" <> VNull) as H1 by discriminate.
  assert (VString "c" <> VUndefined) as H2 by discriminate.
  assert (Number_isInteger (VNumber 2) = true) as H3 by (vm_compute; reflexivity).
  assert (integer_value 2
          = Z.of_nat (List.length (items_of_reading (Get "tags" Sample.settled))))
    as H4 by (vm_compute; reflexivity).
  split; [exact H1 | split; [exact H2 | split; [exact H3 | split; [exact H4 |]]]].
  exact (f_equal fst
           (proj1 (push_then_arrayFetch Sample.Number_toString "tags" (VString "c") 2
                     Sample.settled H1 H2 H3 H4))).
Defined.

Lemma push_push_order_witness :
  VString "c" <> VNull /\ VString "c" <> VUndefined
  /\ VString "d" <> VNull /\ VString "d" <> VUndefined
  /\ Get "tags"
       (snd (Database.push Sample.Number_toString (VString "tags") (VString "d")
               (snd (Database.push Sample.Number_toString
                       (VString "tags") (VString "c") Sample.settled))))
     = Stored (VArray (items_of_reading (Get "tags" Sample.settled)
                       ++ [Some (VString "c"); Some (VString "d")])%list).
Proof.
  assert (VString "c" <> VNull) as H1 by discriminate.
  assert (VString "c" <> VUndefined) as H2 by discriminate.
  assert (VString "d" <> VNull) as H3 by discriminate.
  assert (VString "d" <> VUndefined) as H4 by discriminate.
  split; [exact H1 | split; [exact H2 | split; [exact H3 | split; [exact H4 |]]]].
  exact (proj1 (push_push_order Sample.Number_toString "tags" _ _ Sample.settled
                  H1 H2 H3 H4)).
Defined.

Lemma deleteKey_removes_subkey_witness :
  Get "cfg" Sample.fileless
  = Stored (VObject [("theme", VString "dark"); ("size", VNumber 2)])
  /\ in_names "theme" Object_prototype_names = false
  /\ fst (objectFetch (VString "cfg") (VString "theme")
            (snd (Database.deleteKey Sample.Number_toString (VString "cfg")
                    (VString "theme") Sample.fileless)))
     = Normal (Stored VUndefined).
Proof.
  assert (Get "cfg" Sample.fileless
          = Stored (VObject [("theme", VString "dark"); ("size", VNumber 2)])) as H
    by reflexivity.
  assert (in_names "theme" Object_prototype_names = false) as M by reflexivity.
  split; [exact H | split; [exact M |]].
  exact (f_equal fst
           (proj1 (proj2 (deleteKey_removes_subkey Sample.Number_toString
                            "cfg" "theme" _ Sample.fileless H)) M)).
Defined.

Lemma deleteKey_on_array_witness :
  obj_get "tags" (data (this Sample.settled))
  = VArray [Some (VString "a"); Some (VString "b")]
  /\ Database.deleteKey Sample.Number_toString (VString "tags") (VString "length")
       Sample.settled
     = (Abrupt ThrownTypeError, Sample.settled).
Proof.
  assert (obj_get "tags" (data (this Sample.settled))
          = VArray [Some (VString "a"); Some (VString "b")]) as H
    by reflexivity.
  split; [exact H|].
  exact (proj1 (deleteKey_on_array Sample.Number_toString "tags" _
                  Sample.settled H)).
Defined.

Lemma destroy_without_file_witness :
  (files (disk Sample.fileless) !! filePath (this Sample.fileless) = None
   \/ filePath (this Sample.fileless) ∈ undeletable (disk Sample.fileless))
  /\ Database.destroy Sample.Number_toString Sample.fileless
     = (Abrupt (Thrown FILE_NOT_FOUND), Sample.fileless).
Proof.
  assert (files (disk Sample.fileless) !! filePath (this Sample.fileless) = None
          \/ filePath (this Sample.fileless) ∈ undeletable (disk Sample.fileless))
    as H by (left; reflexivity).
  split; [exact H|].
  exact (destroy_without_file Sample.Number_toString Sample.fileless H).
Defined.

Lemma delete_NaN_removes_nothing_witness :
  PrimFloat.is_nan PrimFloat.nan = true
  /\ obj_get "scores" (data (this Sample.fileless))
     = VArray [Some (VNumber 1); Some (VNumber PrimFloat.nan); Some (VNumber 1)]
  /\ ~ In None [Some (VNumber 1); Some (VNumber PrimFloat.nan); Some (VNumber 1)]
  /\ data (this (snd (Database.delete Sample.Number_toString Sample.same_reference
                        (VString "scores") (VNumber PrimFloat.nan) Sample.fileless)))
     = data (this Sample.fileless).
Proof.
  assert (PrimFloat.is_nan PrimFloat.nan = true) as H1 by reflexivity.
  assert (obj_get "scores" (data (this Sample.fileless))
          = VArray [Some (VNumber 1); Some (VNumber PrimFloat.nan); Some (VNumber 1)])
    as H2 by reflexivity.
  assert (~ In None [Some (VNumber 1); Some (VNumber PrimFloat.nan);
                     Some (VNumber 1)]) as H3
    by (simpl; intros [H|[H|[H|[]]]]; discriminate H).
  split; [exact H1 | split; [exact H2 | split; [exact H3 |]]].
  exact (delete_NaN_removes_nothing Sample.Number_toString Sample.same_reference
           "scores" _ _ Sample.fileless H1 H2 H3).
Defined.

Lemma non_finite_number_saved_as_null_witness :
  PrimFloat.is_finite PrimFloat.infinity = false
  /\ (filePath (this Sample.settled) ∉ unwritable (disk Sample.settled))
  /\ "hits" <> "__proto__"
  /\ files (disk (snd (Database.set Sample.Number_toString (VString "hits")
                         (VNumber PrimFloat.infinity) Sample.settled)))
       !! filePath (this (snd (Database.set Sample.Number_toString (VString "hits")
                         (VNumber PrimFloat.infinity) Sample.settled)))
     = Some (JSON_stringify Sample.Number_toString
               (obj_set "hits" VNull (data (this Sample.settled)))).
Proof.
  assert (PrimFloat.is_finite PrimFloat.infinity = false) as H1 by reflexivity.
  assert (filePath (this Sample.settled) ∉ unwritable (disk Sample.settled)) as H2
    by (simpl; set_solver).
  assert ("hits" <> "__proto__") as H3 by discriminate.
  split; [exact H1 | split; [exact H2 | split; [exact H3 |]]].
  exact (proj1 (proj2 (non_finite_number_saved_as_null Sample.Number_toString "hits"
                         PrimFloat.infinity Sample.settled H1 H2 H3))).
Defined.
